(** * Weather MCP server: tool-call handler and HTTP session layer

    A shallow embedding of the two entry points of the repository:

    - [src/main.ts]: the stdio server (class [Weather]);
    - the HTTP server, class [MCPServer]: session map, timers, tool handler;
    - [src/server/tools.ts]: the tool descriptor [weatherTool].

    JavaScript values are modelled as JSON trees with [undefined] as [None];
    code that throws runs in a small writer/exception monad whose log is the
    sequence of observable effects (console output, outbound HTTP calls,
    transport sends, HTTP responses). *)

From Stdlib Require Import String Ascii List Bool ZArith QArith Lia.
From Stdlib Require Import DecimalString.
From Stdlib Require Import Permutation.
Import ListNotations.
Close Scope Q_scope.
Local Open Scope string_scope.
Local Open Scope list_scope.
Set Warnings "-register-all".

(* ===================================================================== *)
(** ** JavaScript values *)
(* ===================================================================== *)

Module JS.

(** A value that arrived as JSON.  Object fields are the own properties
    of the object, in order, each key at most once. *)
Inductive JSON : Type :=
| JNull
| JBool (b : bool)
| JNum (q : Q)
| JStr (s : string)
| JArr (items : list JSON)
| JObj (fields : list (string * JSON)).

(** A JavaScript expression value: [None] is [undefined]. *)
Definition value : Type := option JSON.

Definition undefined : value := None.

(** ToBoolean: [undefined], [null], [false], [0] and the empty string
    are falsy, everything else (every array and object) is truthy. *)
Definition truthy (v : value) : bool :=
  match v with
  | None => false
  | Some JNull => false
  | Some (JBool b) => b
  | Some (JNum q) => negb (Qeq_bool q 0%Q)
  | Some (JStr s) => negb (String.eqb s "")
  | Some (JArr _) => true
  | Some (JObj _) => true
  end.

(** Own-property lookup in a field list. *)
Fixpoint lookup {A : Type} (k : string) (fields : list (string * A)) : option A :=
  match fields with
  | [] => None
  | (k', v) :: rest => if String.eqb k k' then Some v else lookup k rest
  end.

(** Assignment [o[k] = v] on own properties: an existing key keeps its
    position, a new key goes last. *)
Fixpoint assign {A : Type} (k : string) (v : A) (fields : list (string * A))
  : list (string * A) :=
  match fields with
  | [] => [(k, v)]
  | (k', v') :: rest =>
      if String.eqb k k' then (k, v) :: rest else (k', v') :: assign k v rest
  end.

(** ToString, as a template literal applies it, throws for some values
    that arrived as JSON.  No member of such a value is callable, so an
    object with an own member [toString] has no usable [toString], and
    [Object.prototype.valueOf] (or an own [valueOf]) yields no primitive:
    the conversion throws a [TypeError].  An object without own
    [toString] converts through [Object.prototype.toString].  An array
    converts through [join], which converts every element other than
    [null]. *)
Fixpoint ToString_throws (v : JSON) : bool :=
  match v with
  | JObj fields =>
      match lookup "toString" fields with
      | Some _ => true
      | None => false
      end
  | JArr items => existsb ToString_throws items
  | _ => false
  end.

(** Error objects: [name], [message] and, for [McpError], the numeric
    [code] and the optional [data] member. *)
Record error : Type := mkError {
  err_name : string;
  err_message : string;
  err_code : option Z;
  err_data : value
}.

(** [new Error(message)]. *)
Definition Error (message : string) : error :=
  mkError "Error" message None undefined.

(** The [TypeError] that Node raises for [x.prop] when [x] is
    [undefined]. *)
Definition TypeError_undefined_property (prop : string) : error :=
  mkError "TypeError"
    ("Cannot read properties of undefined (reading '" ++ prop ++ "')")
    None undefined.

(** The [TypeError] of a failed conversion to a primitive. *)
Definition TypeError_to_primitive : error :=
  mkError "TypeError" "Cannot convert object to primitive value" None undefined.

(** The [TypeError] raised by calling a member that is not a function. *)
Definition TypeError_not_a_function (what : string) : error :=
  mkError "TypeError" (what ++ " is not a function") None undefined.

(** Anything a [throw] can carry: an [Error] instance or another value. *)
Inductive thrown : Type :=
| ThrownError (e : error)
| ThrownValue (v : value).

(** [x instanceof Error]. *)
Definition instanceof_Error (t : thrown) : option error :=
  match t with
  | ThrownError e => Some e
  | ThrownValue _ => None
  end.

End JS.

Import JS.

(* ===================================================================== *)
(** ** The protocol SDK's error class *)
(* ===================================================================== *)

Module Sdk.

(** [ErrorCode] of the SDK's [types.js]. *)
Inductive ErrorCode : Type :=
| ParseError
| InvalidRequest
| MethodNotFound
| InvalidParams
| InternalError.

Definition code_number (c : ErrorCode) : Z :=
  match c with
  | ParseError => -32700
  | InvalidRequest => -32600
  | MethodNotFound => -32601
  | InvalidParams => -32602
  | InternalError => -32603
  end%Z.

Definition show_Z (z : Z) : string := NilZero.string_of_int (Z.to_int z).

(** [class McpError extends Error]: the constructor passes
    [`MCP error ${code}: ${message}`] to [Error] and stores [code]; the
    handlers never pass [data]. *)
Definition McpError (c : ErrorCode) (message : string) : error :=
  mkError "McpError"
    ("MCP error " ++ show_Z (code_number c) ++ ": " ++ message)
    (Some (code_number c)) undefined.

(** The class of an error as a client sees it: its numeric code. *)
Definition has_code (c : ErrorCode) (e : error) : Prop :=
  err_code e = Some (code_number c).

End Sdk.

Import Sdk.

(* ===================================================================== *)
(** ** Observable effects and the exception monad *)
(* ===================================================================== *)

(** One argument of a [console.log]/[console.error] call, or one piece of
    a template literal passed to it. *)
Inductive console_part : Type :=
| Text (s : string)
| Shown (v : value)
| ShownThrown (t : thrown).

(** The options given to [axios.create]. *)
Record AxiosConfig : Type := mkAxios {
  timeout : Z;
  baseURL : string;
  headers : list (string * string)
}.

(** A live [StreamableHTTPServerTransport], by object identity. *)
Definition transport : Type := nat.

Inductive event : Type :=
| ConsoleError (parts : list console_part)
| ConsoleLog (parts : list console_part)
| AxiosGet (instance : AxiosConfig) (url : string) (params : list (string * value))
| SetListToolsHandler (tools : list JSON)
| SetCallToolHandler
| ServerConnect (t : transport)
| ServerClose
| TransportHandleRequest (t : transport) (body : value)
| TransportSend (t : transport) (message : JSON)
| UnhandledRejection (t : thrown)
| ResJson (status : Z) (body : JSON).   (* the call res.status(status).json(body) *)

Definition is_network_call (e : event) : bool :=
  match e with AxiosGet _ _ _ => true | _ => false end.

Definition is_console (e : event) : bool :=
  match e with ConsoleError _ | ConsoleLog _ => true | _ => false end.

(** A computation that logs effects and either returns or throws. *)
Definition M (A : Type) : Type := list event * (A + thrown).

Definition ret {A : Type} (x : A) : M A := ([], inl x).

Definition throw {A : Type} (t : thrown) : M A := ([], inr t).

Definition emit (e : event) : M unit := ([e], inl tt).

Definition bind {A B : Type} (m : M A) (k : A -> M B) : M B :=
  match m with
  | (log, inl x) => let '(log', r) := k x in (log ++ log', r)
  | (log, inr t) => (log, inr t)
  end.

(** [try { body } catch (error) { handler }]. *)
Definition try_catch {A : Type} (body : M A) (handler : thrown -> M A) : M A :=
  match body with
  | (log, inl x) => (log, inl x)
  | (log, inr t) => let '(log', r) := handler t in (log ++ log', r)
  end.

(** [if (c) { m }] for a statement [m]. *)
Definition when (c : bool) (m : M unit) : M unit := if c then m else ret tt.

Declare Scope js_scope.
Delimit Scope js_scope with js.
Notation "x <- m ;; k" := (bind m (fun x => k))
  (at level 61, m at next level, right associativity) : js_scope.
Notation "m ;; k" := (bind m (fun _ => k))
  (at level 61, right associativity) : js_scope.
Local Open Scope js_scope.

Definition effects {A : Type} (m : M A) : list event := fst m.
Definition outcome {A : Type} (m : M A) : A + thrown := snd m.

Definition network_calls {A : Type} (m : M A) : list event :=
  filter is_network_call (effects m).

(** [throw new ...(...)] of an [Error] instance. *)
Definition throw_error {A : Type} (e : error) : M A := throw (ThrownError e).

(** [o.k] where [o] may be [undefined]. *)
Definition member (o : option (list (string * JSON))) (k : string) : M value :=
  match o with
  | None => throw_error (TypeError_undefined_property k)
  | Some fields => ret (lookup k fields)
  end.

(** [`${v}`]: the conversion of one interpolated value of a template
    literal; [undefined] converts to a string. *)
Definition interpolate (v : value) : M unit :=
  match v with
  | Some j => if ToString_throws j then throw_error TypeError_to_primitive else ret tt
  | None => ret tt
  end.

(** [v.k] for a truthy [v]: only objects carry the members read here. *)
Definition get_member (v : value) (k : string) : value :=
  match v with
  | Some (JObj fields) => lookup k fields
  | _ => undefined
  end.

(** [xs.includes(x)] on an array of strings. *)
Definition includes (xs : list string) (x : string) : bool :=
  existsb (String.eqb x) xs.

(* ===================================================================== *)
(** ** The upstream weather provider *)
(* ===================================================================== *)

(** How [axiosInstance.get] settles: a 2xx response resolves with the
    parsed body in [response.data]; anything else rejects. *)
Inductive axios_outcome : Type :=
| Resolves (data : value)
| Rejects (t : thrown).

Definition upstream : Type :=
  AxiosConfig -> string -> list (string * value) -> axios_outcome.

(** [await instance.get(url, { params })], yielding [response.data]. *)
Definition axios_get (instance : AxiosConfig) (net : upstream)
    (url : string) (params : list (string * value)) : M value :=
  emit (AxiosGet instance url params) ;;
  match net instance url params with
  | Resolves data => ret data
  | Rejects t => throw t
  end.

(** A validated [tools/call] request: [params.name] is a string and
    [params.arguments] is absent or an object. *)
Record CallToolRequest : Type := mkCall {
  name : string;
  arguments : option (list (string * JSON))
}.

Definition query (latitude longitude : value) : list (string * value) :=
  [ ("latitude", latitude);
    ("longitude", longitude);
    ("current", Some (JStr "temperature_2m,wind_speed_10m"));
    ("hourly", Some (JStr "temperature_2m,relative_humidity_2m,wind_speed_10m")) ].

(* ===================================================================== *)
(** ** The stdio server, [main.ts] *)
(* ===================================================================== *)

Module Stdio.

Definition axiosInstance : AxiosConfig :=
  mkAxios 5000%Z "https://api.open-meteo.com/v1"
    [("Accept", "application/json"); ("Content-Type", "application/json")].

(** The [CallToolRequestSchema] handler installed by
    [setupToolHandlers]. *)
Definition callTool (net : upstream) (request : CallToolRequest) : M value :=
  try_catch
    (when (negb (includes ["get-weather"] (name request)))
       (throw_error (McpError MethodNotFound
                       ("Unknown tool: " ++ name request))) ;;
     let args := arguments request in
     latitude <- member args "latitude" ;;
     when (negb (truthy latitude))
       (throw_error (McpError InvalidParams
                       "Missing required parameter: latitude")) ;;
     longitude <- member args "longitude" ;;
     when (negb (truthy longitude))
       (throw_error (McpError InvalidParams
                       "Missing required parameter: longitude")) ;;
     if String.eqb (name request) "get-weather" then
       interpolate latitude ;;
       interpolate longitude ;;
       emit (ConsoleError [Text "[API] Fetching Weather from: "; Shown latitude;
                           Text " and "; Shown longitude]) ;;
       data <- axios_get axiosInstance net "/forecast" (query latitude longitude) ;;
       when (negb (truthy data) || negb (truthy (get_member data "current")))
         (throw_error (Error "No current weather data returned from Weather API")) ;;
       ret undefined
     else ret undefined)
    (fun error =>
       match instanceof_Error error with
       | Some e =>
           emit (ConsoleError [Text "[Error] Failed to fetch data:";
                               ShownThrown error]) ;;
           throw_error (McpError InternalError
                          ("Failed to fetch data: " ++ err_message e))
       | None => throw error
       end).

End Stdio.

(* ===================================================================== *)
(** ** The tool descriptor, [server/tools.ts] *)
(* ===================================================================== *)

Definition weatherTool : JSON :=
  JObj [ ("name", JStr "get-weather");
         ("description", JStr "Get weather wind e etc..");
         ("inputSchema",
          JObj [ ("type", JStr "object");
                 ("properties",
                  JObj [ ("latitude",
                          JObj [("type", JStr "string"); ("description", JStr "Latitude")]);
                         ("longitude",
                          JObj [("type", JStr "string"); ("description", JStr "Longitude")]) ]);
                 ("required", JArr [JStr "latitude"; JStr "longitude"]) ]) ].

(* ===================================================================== *)
(** ** The HTTP server, class [MCPServer] *)
(* ===================================================================== *)

Module Http.

Definition JSON_RPC : string := "2.0".
Definition SESSION_ID_HEADER_NAME : string := "mcp-session-id".

Definition axiosInstance : AxiosConfig :=
  mkAxios 5000%Z "https://api.open-meteo.com/v1"
    [("Accept", "application/json"); ("Content-Type", "application/json")].

(** The [CallToolRequestSchema] handler installed by [setupTools]. *)
Definition callTool (net : upstream) (request : CallToolRequest) : M value :=
  try_catch
    (when (negb (includes ["get-weather"] (name request)))
       (throw_error (McpError MethodNotFound
                       ("Unknown tool: " ++ name request))) ;;
     let args := arguments request in
     latitude <- member args "latitude" ;;
     when (negb (truthy latitude))
       (throw_error (McpError InvalidParams
                       "Missing required parameter: latitude")) ;;
     longitude <- member args "longitude" ;;
     when (negb (truthy longitude))
       (throw_error (McpError InvalidParams
                       "Missing required parameter: longitude")) ;;
     if String.eqb (name request) "get-weather" then
       interpolate latitude ;;
       interpolate longitude ;;
       emit (ConsoleError [Text "[API] Fetching Weather from: "; Shown latitude;
                           Text " and "; Shown longitude]) ;;
       data <- axios_get axiosInstance net "/forecast" (query latitude longitude) ;;
       when (negb (truthy data) || negb (truthy (get_member data "current")))
         (throw_error (Error "No current weather data returned from Weather API")) ;;
       ret undefined
     else ret undefined)
    (fun error =>
       match instanceof_Error error with
       | Some e =>
           emit (ConsoleError [Text "[Error] Failed to fetch data:";
                               ShownThrown error]) ;;
           throw_error (McpError InternalError
                          ("Failed to fetch data: " ++ err_message e))
       | None => throw error
       end).

(** *** Server state *)

(** The closure of one [setInterval] started by [streamMessages]: the
    transport it writes to, its [messageCount], and whether
    [clearInterval] was called on it. *)
Record StreamTimer : Type := mkStream {
  target : transport;
  messageCount : nat;
  cleared : bool
}.

(** A [NodeJS.Timeout]; [closed] after [close()]. *)
Record Timeout : Type := mkTimeout { closed : bool }.

Record MCPServer : Type := mkServer {
  transports : list (string * transport);      (* own properties of the map *)
  toolInterval : option Timeout;
  streams : list StreamTimer;                  (* intervals, by creation order *)
  created : nat                                (* transports constructed so far *)
}.

Definition with_transports (f : list (string * transport) -> list (string * transport))
    (s : MCPServer) : MCPServer :=
  mkServer (f (transports s)) (toolInterval s) (streams s) (created s).

Definition with_toolInterval (t : option Timeout) (s : MCPServer) : MCPServer :=
  mkServer (transports s) t (streams s) (created s).

Definition with_streams (f : list StreamTimer -> list StreamTimer)
    (s : MCPServer) : MCPServer :=
  mkServer (transports s) (toolInterval s) (f (streams s)) (created s).

Definition with_created (n : nat) (s : MCPServer) : MCPServer :=
  mkServer (transports s) (toolInterval s) (streams s) n.

(** *** Reading the session map

    [transports] is a plain object literal, so a read that finds no own
    property continues to [Object.prototype]. *)

Definition object_prototype_members : list string :=
  [ "constructor"; "__defineGetter__"; "__defineSetter__"; "hasOwnProperty";
    "__lookupGetter__"; "__lookupSetter__"; "isPrototypeOf";
    "propertyIsEnumerable"; "toString"; "valueOf"; "__proto__";
    "toLocaleString" ].

(** What [this.transports[sessionId]] evaluates to. *)
Inductive slot : Type :=
| Live (t : transport)          (* a registered transport *)
| Inherited (member : string)   (* a member of [Object.prototype] *)
| Absent.                       (* [undefined] *)

Definition transports_get (s : MCPServer) (sessionId : string) : slot :=
  match lookup sessionId (transports s) with
  | Some t => Live t
  | None =>
      if includes object_prototype_members sessionId
      then Inherited sessionId else Absent
  end.

(** Transports, functions and [Object.prototype] itself are all truthy. *)
Definition slot_truthy (x : slot) : bool :=
  match x with Absent => false | _ => true end.

(** Truthiness of a [string | undefined]. *)
Definition truthy_id (sessionId : option string) : bool :=
  match sessionId with
  | Some k => negb (String.eqb k "")
  | None => false
  end.

(** [Object.values(this.transports)]: array-index keys first, in
    ascending numeric order, then the other keys in insertion order. *)
Definition array_index (k : string) : option N :=
  match NilEmpty.uint_of_string k with
  | Some d =>
      let n := N.of_uint d in
      if String.eqb (NilZero.string_of_uint (N.to_uint n)) k && (n <? 4294967295)%N
      then Some n else None
  | None => None
  end.

Fixpoint insert_by_index (x : N * transport) (l : list (N * transport))
  : list (N * transport) :=
  match l with
  | [] => [x]
  | y :: rest =>
      if (fst x <=? fst y)%N then x :: y :: rest else y :: insert_by_index x rest
  end.

Fixpoint indexed (own : list (string * transport)) : list (N * transport) :=
  match own with
  | [] => []
  | (k, t) :: rest =>
      match array_index k with
      | Some n => insert_by_index (n, t) (indexed rest)
      | None => indexed rest
      end
  end.

Fixpoint named (own : list (string * transport)) : list transport :=
  match own with
  | [] => []
  | (k, t) :: rest =>
      match array_index k with
      | Some _ => named rest
      | None => t :: named rest
      end
  end.

Definition Object_values (own : list (string * transport)) : list transport :=
  map snd (indexed own) ++ named own.

(** *** The SDK and the runtime during one invocation

    What the code cannot decide itself: the schema check of the SDK,
    whether a call into the SDK throws, the session identifier a fresh
    transport has after its first request, the identifier drawn by
    [randomUUID] and the clock. *)
Record Environment : Type := mkEnv {
  safeParse : value -> bool;          (* InitializeRequestSchema.safeParse(data).success *)
  handleRequest_throws : transport -> value -> option thrown;
  connect_throws : transport -> option thrown;
  sessionId_after : transport -> value -> option string;
  send_throws : transport -> JSON -> option thrown;
  close_throws : option thrown;
  randomUUID : string;
  now : string;                       (* new Date().toISOString() *)
  headersSent_after : transport -> value -> bool
    (* whether handleRequest had sent the response head when it settled *)
}.

Record HttpRequest : Type := mkRequest {
  session_header : option string;     (* req.headers['mcp-session-id'] *)
  body : value                        (* req.body *)
}.

(** [await] of an SDK call that may reject. *)
Definition await_outcome (o : option thrown) : M unit :=
  match o with
  | None => ret tt
  | Some t => throw t
  end.

(** Calling an [async] function without [await]: the caller goes on and
    cannot catch; a rejection is left unhandled (it is recorded here right
    after the call, the runtime reports it once the caller has yielded). *)
Definition detached (m : M unit) : M unit :=
  match m with
  | (log, inl _) => (log, inl tt)
  | (log, inr t) => (log ++ [UnhandledRejection t], inl tt)
  end.

Fixpoint forEach {A : Type} (xs : list A) (f : A -> M unit) : M unit :=
  match xs with
  | [] => ret tt
  | x :: rest => f x ;; forEach rest f
  end.

Definition show_nat (n : nat) : string := NilZero.string_of_uint (Nat.to_uint n).

(** [this.transports[sessionId]]; the key [undefined] reads the
    property named ["undefined"]. *)
Definition read (s : MCPServer) (sessionId : option string) : slot :=
  match sessionId with
  | Some k => transports_get s k
  | None => transports_get s "undefined"
  end.

(** [transport.handleRequest(req, res, parsedBody)]. *)
Definition transport_handleRequest (env : Environment) (x : slot)
    (parsedBody : value) : M unit :=
  match x with
  | Live t =>
      emit (TransportHandleRequest t parsedBody) ;;
      await_outcome (handleRequest_throws env t parsedBody)
  | Inherited _ => throw_error (TypeError_not_a_function "transport.handleRequest")
  | Absent => throw_error (TypeError_undefined_property "handleRequest")
  end.

Definition sendNotification (env : Environment) (t : transport)
    (notification : list (string * JSON)) : M unit :=
  let rpcNotificaiton := JObj (assign "jsonrpc" (JStr JSON_RPC) notification) in
  emit (TransportSend t rpcNotificaiton) ;;
  await_outcome (send_throws env t rpcNotificaiton).

Definition createErrorResponse (env : Environment) (message : string) : JSON :=
  JObj [ ("jsonrpc", JStr "2.0");
         ("error", JObj [ ("code", JNum (inject_Z (-32000)));
                          ("message", JStr message) ]);
         ("id", JStr (randomUUID env)) ].

(** The [match] is the [Array.isArray(body)] test, [existsb] is
    [body.some]. *)
Definition isInitializeRequest (env : Environment) (body : value) : bool :=
  let isInitial := fun data : value => safeParse env data in
  match body with
  | Some (JArr items) => existsb (fun request => isInitial (Some request)) items
  | _ => isInitial body
  end.

(** *** The response object

    The handlers write to [res] through [res.status(..).json(..)] only.
    Express sets headers in that call, which throws
    [ERR_HTTP_HEADERS_SENT] once the response head has been sent; before
    the call, only a transport's [handleRequest] can have sent it. *)
Definition ERR_HTTP_HEADERS_SENT : error :=
  mkError "Error" "Cannot set headers after they are sent to the client" None undefined.

(** [res.headersSent] after the effects [done] of the request. *)
Definition headersSent (env : Environment) (done : list event) : bool :=
  existsb (fun e => match e with
                    | TransportHandleRequest t parsedBody =>
                        headersSent_after env t parsedBody
                    | ResJson _ _ => true
                    | _ => false
                    end) done.

(** [res.status(status).json(body)], called after the effects [done]. *)
Definition res_json (env : Environment) (done : list event)
    (status : Z) (body : JSON) : M unit :=
  emit (ResJson status body) ;;
  if headersSent env done then throw_error ERR_HTTP_HEADERS_SENT else ret tt.

Definition LoggingMessageNotification (data : string) : list (string * JSON) :=
  [ ("method", JStr "notifications/message");
    ("params", JObj [("level", JStr "info"); ("data", JStr data)]) ].

Definition ToolListChangedNotification : list (string * JSON) :=
  [ ("method", JStr "notifications/tools/list_changed") ].

(** *** Methods, as computations over the server state *)

Definition P (A : Type) : Type := MCPServer -> M A * MCPServer.

Definition pret {A : Type} (x : A) : P A := fun s => (ret x, s).

Definition pbind {A B : Type} (m : P A) (k : A -> P B) : P B :=
  fun s =>
    match m s with
    | ((log, inl x), s1) => let '((log', r), s2) := k x s1 in ((log ++ log', r), s2)
    | ((log, inr t), s1) => ((log, inr t), s1)
    end.

Definition lift {A : Type} (m : M A) : P A := fun s => (m, s).

Definition get : P MCPServer := fun s => (ret s, s).

Definition modify (f : MCPServer -> MCPServer) : P unit := fun s => (ret tt, f s).

Definition ptry {A : Type} (body : P A) (handler : thrown -> P A) : P A :=
  fun s =>
    match body s with
    | ((log, inl x), s1) => ((log, inl x), s1)
    | ((log, inr t), s1) => let '((log', r), s2) := handler t s1 in ((log ++ log', r), s2)
    end.

(** [try { body } catch (error) { handler }] where the handler is also
    given what the [try] block has done, from which the state of [res]
    follows. *)
Definition ptry_with {A : Type} (body : P A)
    (handler : list event -> thrown -> P A) : P A :=
  fun s =>
    match body s with
    | ((log, inl x), s1) => ((log, inl x), s1)
    | ((log, inr t), s1) =>
        let '((log', r), s2) := handler log t s1 in ((log ++ log', r), s2)
    end.

Declare Scope srv_scope.
Delimit Scope srv_scope with srv.
Notation "x <- m ;; k" := (pbind m (fun x => k))
  (at level 61, m at next level, right associativity) : srv_scope.
Notation "m ;; k" := (pbind m (fun _ => k))
  (at level 61, right associativity) : srv_scope.

Definition log (parts : list console_part) : P unit := lift (emit (ConsoleLog parts)).
Definition log_error (parts : list console_part) : P unit :=
  lift (emit (ConsoleError parts)).

(** [setInterval] in [streamMessages]: a new closure with
    [messageCount = 0]. *)
Definition setInterval_stream (t : transport) : P unit :=
  modify (with_streams (fun l => l ++ [mkStream t 0 false])).

Fixpoint update_nth {A : Type} (i : nat) (f : A -> A) (l : list A) {struct l}
  : list A :=
  match l, i with
  | [], _ => []
  | x :: rest, O => f x :: rest
  | x :: rest, S j => x :: update_nth j f rest
  end.

Definition clearInterval (i : nat) : P unit :=
  modify (with_streams
            (update_nth i (fun st => mkStream (target st) (messageCount st) true))).

Definition increment (i : nat) : P unit :=
  modify (with_streams
            (update_nth i (fun st => mkStream (target st) (S (messageCount st)) (cleared st)))).

Definition streamMessages (env : Environment) (t : transport) : P unit :=
  (ptry
     (lift (detached (sendNotification env t
                        (LoggingMessageNotification "SSE Connection established"))) ;;
      setInterval_stream t)
     (fun error => log_error [Text "Error sending message:"; ShownThrown error]))%srv.

(** The body of the interval callback of [streamMessages] for the
    closure [st] stored at index [i]. *)
Definition stream_callback (env : Environment) (i : nat) (st : StreamTimer) : P unit :=
  (increment i ;;
   let messageCount := S (messageCount st) in
   let data := ("Message " ++ show_nat messageCount ++ " at " ++ now env)%string in
   ptry
     (lift (detached (sendNotification env (target st)
                        (LoggingMessageNotification data))) ;;
      log [Text ("Sent: " ++ data)] ;;
      if Nat.eqb messageCount 2 then
        clearInterval i ;;
        lift (detached (sendNotification env (target st)
                          (LoggingMessageNotification "Streaming complete!"))) ;;
        log [Text "Stream completed"]
      else pret tt)
     (fun error =>
        log_error [Text "Error sending message:"; ShownThrown error] ;;
        clearInterval i))%srv.

(** The runtime calls an interval's callback only while the interval is
    not cleared. *)
Definition stream_fire (env : Environment) (i : nat) : P unit :=
  (s <- get ;;
   match nth_error (streams s) i with
   | Some st => if cleared st then pret tt else stream_callback env i st
   | None => pret tt
   end)%srv.

Definition handleGetRequest (env : Environment) (req : HttpRequest) : P unit :=
  (log [Text "get request received"] ;;
   let sessionId := session_header req in
   s <- get ;;
   if negb (truthy_id sessionId) || negb (slot_truthy (read s sessionId)) then
     (* nothing has touched [res] yet *)
     lift (res_json env [] 400
             (createErrorResponse env "Bad Request: invalid session ID or method."))
   else
     log [Text "Establishing SSE stream for session ";
          Shown (option_map JStr sessionId)] ;;
     let transport := read s sessionId in
     lift (transport_handleRequest env transport undefined) ;;
     match transport with
     | Live t => streamMessages env t
     | _ => pret tt
     end)%srv.

(** [new StreamableHTTPServerTransport(...)] yields the next unused
    identity, [created s].  A session identifier is drawn by the
    transport's generator, [randomUUID], so the write
    [this.transports[sessionId] = transport] is an own-property assignment
    ([__proto__], the one key for which it would not be, is no UUID). *)
Definition handlePostRequest (env : Environment) (req : HttpRequest) : P unit :=
  (let sessionId := session_header req in
   log [Text "post request received"] ;;
   log [Text "body: "; Shown (body req)] ;;
   ptry_with
     (s <- get ;;
      if truthy_id sessionId && slot_truthy (read s sessionId) then
        let transport := read s sessionId in
        lift (transport_handleRequest env transport (body req))
      else if negb (truthy_id sessionId) && isInitializeRequest env (body req) then
        let transport := created s in
        modify (with_created (S (created s))) ;;
        lift (emit (ServerConnect transport) ;;
              await_outcome (connect_throws env transport))%js ;;
        lift (transport_handleRequest env (Live transport) (body req)) ;;
        let sessionId := sessionId_after env transport (body req) in
        match sessionId with
        | Some k =>
            if truthy_id sessionId
            then modify (with_transports (assign k transport))
            else pret tt
        | None => pret tt
        end
      else
        (* no transport has been given [res] on this path *)
        lift (res_json env [] 400
                (createErrorResponse env "Bad Request: invalid session ID or method.")))
     (fun done error =>
        log_error [Text "Error handling MCP request:"; ShownThrown error] ;;
        lift (res_json env done 500 (createErrorResponse env "Internal server error."))))%srv.

Definition cleanup (env : Environment) : P unit :=
  (modify (fun s =>
             with_toolInterval (option_map (fun _ => mkTimeout true) (toolInterval s)) s) ;;
   lift (emit ServerClose ;; await_outcome (close_throws env))%js)%srv.

Definition setToolSchema : M unit := emit (SetListToolsHandler [weatherTool]).

(** The callback of the five-second interval of [setupTools]. *)
Definition tool_callback (env : Environment) : P unit :=
  (lift setToolSchema ;;
   s <- get ;;
   lift (forEach (Object_values (transports s))
           (fun transport =>
              detached (sendNotification env transport ToolListChangedNotification))))%srv.

Definition tool_fire (env : Environment) : P unit :=
  (s <- get ;;
   match toolInterval s with
   | Some t => if closed t then pret tt else tool_callback env
   | None => pret tt
   end)%srv.

Definition setupTools : P unit :=
  (lift setToolSchema ;;
   modify (with_toolInterval (Some (mkTimeout false))) ;;
   lift (emit SetCallToolHandler))%srv.

(** [new MCPServer(server)]. *)
Definition constructor : M unit * MCPServer :=
  setupTools (mkServer [] None [] 0).

(** *** The server as a transition system *)

Inductive call : Type :=
| GET (req : HttpRequest)
| POST (req : HttpRequest)
| ToolTimer
| StreamTimerAt (i : nat)
| Cleanup.

Definition run (env : Environment) (c : call) : P unit :=
  match c with
  | GET req => handleGetRequest env req
  | POST req => handlePostRequest env req
  | ToolTimer => tool_fire env
  | StreamTimerAt i => stream_fire env i
  | Cleanup => cleanup env
  end.

Definition state_after (env : Environment) (c : call) (s : MCPServer) : MCPServer :=
  snd (run env c s).

Definition effects_of (env : Environment) (c : call) (s : MCPServer) : list event :=
  effects (fst (run env c s)).

Definition outcome_of (env : Environment) (c : call) (s : MCPServer) : unit + thrown :=
  outcome (fst (run env c s)).

(** A schedule: calls with the environment each of them runs in. *)
Fixpoint run_all (schedule : list (Environment * call)) (s : MCPServer)
  : list event * MCPServer :=
  match schedule with
  | [] => ([], s)
  | (env, c) :: rest =>
      let '(log1, s1) := (effects_of env c s, state_after env c s) in
      let '(log2, s2) := run_all rest s1 in
      (log1 ++ log2, s2)
  end.

End Http.

Import Http.

(* ===================================================================== *)
(** ** Vocabulary of the statements *)
(* ===================================================================== *)

(** What the [catch] block of the handlers makes of an [Error] instance. *)
Definition fetch_failure (e : error) : error :=
  McpError InternalError ("Failed to fetch data: " ++ err_message e).

(** A property of a run that holds of the stdio handler and of the HTTP
    handler. *)
Definition both_handlers (net : upstream) (request : CallToolRequest)
    (Q : M value -> Prop) : Prop :=
  Q (Stdio.callTool net request) /\ Q (Http.callTool net request).

Definition rejects_with (e : error) (m : M value) : Prop :=
  outcome m = inr (ThrownError e).

Definition no_network_call (m : M value) : Prop := network_calls m = [].

(** The first required parameter that the handler finds falsy, in the
    order in which it looks. *)
Definition first_missing (args : list (string * JSON)) : option string :=
  if negb (truthy (lookup "latitude" args)) then Some "latitude"
  else if negb (truthy (lookup "longitude" args)) then Some "longitude"
  else None.

(** The value converts to a string in a template literal. *)
Definition printable (v : value) : bool :=
  match v with
  | Some j => negb (ToString_throws j)
  | None => true
  end.

(** The effects of a handler up to and including its GET. *)
Definition fetching (latitude longitude : value) : list event :=
  [ ConsoleError [Text "[API] Fetching Weather from: "; Shown latitude;
                  Text " and "; Shown longitude];
    AxiosGet Stdio.axiosInstance "/forecast" (query latitude longitude) ].

(** The upstream's answer to the GET for the coordinates in [args]. *)
Definition answer (net : upstream) (args : list (string * JSON)) : axios_outcome :=
  net Stdio.axiosInstance "/forecast"
    (query (lookup "latitude" args) (lookup "longitude" args)).

(** Sample inputs. *)
Definition berlin : list (string * JSON) :=
  [("latitude", JStr "52.52"); ("longitude", JStr "13.41")].

Definition net_current : upstream :=
  fun _ _ _ =>
    Resolves (Some (JObj [("current", JObj [("temperature_2m", JNum (43 # 2))])])).

Definition net_no_current : upstream :=
  fun _ _ _ => Resolves (Some (JObj [("hourly", JObj [])])).

Definition net_timeout : upstream :=
  fun _ _ _ => Rejects (ThrownError (mkError "AxiosError" "timeout of 5000ms exceeded"
                                       None undefined)).

(** A request without a usable session identifier: the header is absent
    or empty. *)
Definition no_session_id (req : HttpRequest) : bool :=
  negb (truthy_id (session_header req)).

(** A POST that [handlePostRequest] answers by constructing a
    transport. *)
Definition qualifies (env : Environment) (req : HttpRequest) : bool :=
  no_session_id req && isInitializeRequest env (body req).

(** The session header of a request is missing or names no registered
    session. *)
Definition names_no_session (s : MCPServer) (req : HttpRequest) : Prop :=
  match session_header req with
  | None => True
  | Some k => lookup k (transports s) = None
  end.

Definition registered (s : MCPServer) (k : string) : Prop :=
  lookup k (transports s) <> None.

(** Registered transports were constructed by this server. *)
Definition well_formed (s : MCPServer) : Prop :=
  forall k t, lookup k (transports s) = Some t -> t < created s.

(** The JSON-RPC message that [sendNotification] hands to the
    transport. *)
Definition rpc (notification : list (string * JSON)) : JSON :=
  JObj (assign "jsonrpc" (JStr JSON_RPC) notification).

(** The [transport.send] calls of a log, in order. *)
Definition sends (log : list event) : list (transport * JSON) :=
  flat_map (fun e => match e with
                     | TransportSend t m => [(t, m)]
                     | _ => []
                     end) log.

Definition console_output (log : list event) : list event := filter is_console log.

Definition unhandled_rejections (log : list event) : list thrown :=
  flat_map (fun e => match e with
                     | UnhandledRejection t => [t]
                     | _ => []
                     end) log.

Definition responses (log : list event) : list (Z * JSON) :=
  flat_map (fun e => match e with
                     | ResJson status body => [(status, body)]
                     | _ => []
                     end) log.

Definition bad_request (env : Environment) : JSON :=
  createErrorResponse env "Bad Request: invalid session ID or method.".

(** A schema check in the shape of the SDK's [InitializeRequestSchema]:
    [method] is ["initialize"] and [params] carries a string
    [protocolVersion], an object [capabilities] and an object
    [clientInfo] with string [name] and [version]; the optional members
    are objects when present.  It serves the sample environments: the
    theorems hold for every check. *)
Definition is_string (v : value) : bool :=
  match v with Some (JStr _) => true | _ => false end.

Definition is_object (v : value) : bool :=
  match v with Some (JObj _) => true | _ => false end.

Definition optional_object (v : value) : bool :=
  match v with
  | None => true
  | Some (JObj _) => true
  | _ => false
  end.

Definition initialize_shaped (data : value) : bool :=
  let params := get_member data "params" in
  let capabilities := get_member params "capabilities" in
  let clientInfo := get_member params "clientInfo" in
  match get_member data "method" with
  | Some (JStr m) => String.eqb m "initialize"
  | _ => false
  end
  && is_object params
  && optional_object (get_member params "_meta")
  && is_string (get_member params "protocolVersion")
  && is_object capabilities
  && optional_object (get_member capabilities "experimental")
  && optional_object (get_member capabilities "sampling")
  && optional_object (get_member capabilities "roots")
  && is_object clientInfo
  && is_string (get_member clientInfo "name")
  && is_string (get_member clientInfo "version").

(** Sample environments: an SDK that accepts every call and names the
    fresh session; one whose fresh transport answers the request itself
    and ends without a session identifier (as the SDK's transport does for
    a POST whose [Accept] header does not list both content types); and
    one whose sends to transport [0] fail. *)
Definition env_ok : Environment :=
  mkEnv initialize_shaped (fun _ _ => None) (fun _ => None)
    (fun _ _ => Some "3f2b8c1e-0d4a-4c77-9a51-6e2f0b7d9c10")
    (fun _ _ => None) None
    "b7a1d5e2-91c3-4f0e-8a66-2d4c9e1f7a03" "2025-01-01T00:00:00.000Z"
    (fun _ _ => true).

Definition env_no_session_id : Environment :=
  mkEnv initialize_shaped (fun _ _ => None) (fun _ => None)
    (fun _ _ => None)
    (fun _ _ => None) None
    "b7a1d5e2-91c3-4f0e-8a66-2d4c9e1f7a03" "2025-01-01T00:00:00.000Z"
    (fun _ _ => true).

Definition stream_closed : thrown :=
  ThrownError (Error "Not connected").

Definition env_send_fails : Environment :=
  mkEnv initialize_shaped (fun _ _ => None) (fun _ => None)
    (fun _ _ => Some "3f2b8c1e-0d4a-4c77-9a51-6e2f0b7d9c10")
    (fun t _ => if Nat.eqb t 0 then Some stream_closed else None) None
    "b7a1d5e2-91c3-4f0e-8a66-2d4c9e1f7a03" "2025-01-01T00:00:00.000Z"
    (fun _ _ => true).

Definition initialize_body : value :=
  Some (JObj [ ("jsonrpc", JStr "2.0");
               ("id", JNum 1);
               ("method", JStr "initialize");
               ("params",
                JObj [ ("protocolVersion", JStr "2025-03-26");
                       ("capabilities", JObj []);
                       ("clientInfo",
                        JObj [ ("name", JStr "client");
                               ("version", JStr "1.0.0") ]) ]) ]).

Definition fresh_server : MCPServer := snd constructor.

Definition two_sessions : MCPServer :=
  mkServer [("3f2b8c1e-0d4a-4c77-9a51-6e2f0b7d9c10", 0);
            ("9c4e7a20-5b1d-4e88-b3f2-0a6d1c8e4f55", 1)]
    (Some (mkTimeout false)) [mkStream 0 0 false] 2.

(** The effects of one un-awaited [sendNotification]. *)
Definition send_log (env : Environment) (t : transport)
    (notification : list (string * JSON)) : list event :=
  TransportSend t (rpc notification) ::
  match send_throws env t (rpc notification) with
  | Some e => [UnhandledRejection e]
  | None => []
  end.

(** The effects of the [forEach] of the tool-change callback. *)
Definition broadcast_log (env : Environment) (targets : list transport) : list event :=
  flat_map (fun t => send_log env t ToolListChangedNotification) targets.

Definition post_prologue (req : HttpRequest) : list event :=
  [ ConsoleLog [Text "post request received"];
    ConsoleLog [Text "body: "; Shown (body req)] ].

Definition server_error (env : Environment) (error : thrown) : list event :=
  [ ConsoleError [Text "Error handling MCP request:"; ShownThrown error];
    ResJson 500 (createErrorResponse env "Internal server error.") ].

(** The text of the message of the [count]-th firing of a stream
    interval. *)
Definition tick_message (env : Environment) (count : nat) : string :=
  "Message " ++ show_nat count ++ " at " ++ now env.

(** The session identifier under which a POST registers its fresh
    transport, if it registers it. *)
Definition registration (env : Environment) (s : MCPServer) (req : HttpRequest)
  : option string :=
  if qualifies env req then
    match connect_throws env (created s),
          handleRequest_throws env (created s) (body req),
          sessionId_after env (created s) (body req) with
    | None, None, Some k => if String.eqb k "" then None else Some k
    | _, _, _ => None
    end
  else None.

(** What a POST ends with after its [catch] block has called
    [res.status(500).json] for a throw of the [handleRequest] of [t]. *)
Definition after_500 (env : Environment) (t : transport) (parsedBody : value)
  : unit + thrown :=
  if headersSent_after env t parsedBody
  then inr (ThrownError ERR_HTTP_HEADERS_SENT)
  else inl tt.

(** The environments in which the stream interval [i] fires in a
    schedule, in order. *)
Definition firings_of (i : nat) (schedule : list (Environment * call))
  : list Environment :=
  flat_map (fun step => match snd step with
                        | StreamTimerAt j => if Nat.eqb i j then [fst step] else []
                        | _ => []
                        end) schedule.

(** The sends made by the firings of the stream interval [i] in a
    schedule run from [s], whatever the other calls of the schedule. *)
Fixpoint timer_sends (i : nat) (schedule : list (Environment * call)) (s : MCPServer)
  : list (transport * JSON) :=
  match schedule with
  | [] => []
  | (env, c) :: rest =>
      match c with
      | StreamTimerAt j =>
          if Nat.eqb i j then sends (effects_of env c s) else []
      | _ => []
      end ++ timer_sends i rest (state_after env c s)
  end.

(** What a stream interval with count [count] still sends when it fires
    in the environments [firings], and the count and cleared flag it ends
    with. *)
Fixpoint remaining (t : transport) (count : nat) (stopped : bool)
    (firings : list Environment) : list (transport * JSON) * (nat * bool) :=
  match firings with
  | [] => ([], (count, stopped))
  | env :: rest =>
      if stopped then remaining t count stopped rest
      else
        let sent :=
          (t, rpc (LoggingMessageNotification (tick_message env (S count)))) ::
          if Nat.eqb (S count) 2
          then [(t, rpc (LoggingMessageNotification "Streaming complete!"))]
          else [] in
        let '(more, final) := remaining t (S count) (Nat.eqb (S count) 2) rest in
        (sent ++ more, final)
  end.

(* ===================================================================== *)
(** ** Further vocabulary: the handler as a whole *)
(* ===================================================================== *)

(** The request passes the name check and both parameter checks. *)
Definition coordinates_ok (request : CallToolRequest) : bool :=
  String.eqb (name request) "get-weather" &&
  match arguments request with
  | Some args => truthy (lookup "latitude" args) && truthy (lookup "longitude" args)
  | None => false
  end.

(** The argument [k] of a request. *)
Definition argument (request : CallToolRequest) (k : string) : value :=
  match arguments request with
  | Some args => lookup k args
  | None => undefined
  end.

(** The request passes the checks and the template literal of the log
    line: the handler goes on to the GET. *)
Definition reaches_upstream (request : CallToolRequest) : bool :=
  coordinates_ok request &&
  printable (argument request "latitude") &&
  printable (argument request "longitude").

(** The query of the GET for a request. *)
Definition request_query (request : CallToolRequest) : list (string * value) :=
  match arguments request with
  | Some args => query (lookup "latitude" args) (lookup "longitude" args)
  | None => query undefined undefined
  end.

Definition request_answer (net : upstream) (request : CallToolRequest) : axios_outcome :=
  net Stdio.axiosInstance "/forecast" (request_query request).

(** The response body passes [!response.data || !response.data.current]. *)
Definition usable (data : value) : bool :=
  truthy data && truthy (get_member data "current").

(** The error raised ahead of the GET by a request that fails a check. *)
Definition check_failure (request : CallToolRequest) : error :=
  if negb (String.eqb (name request) "get-weather")
  then McpError MethodNotFound ("Unknown tool: " ++ name request)
  else match arguments request with
       | None => TypeError_undefined_property "latitude"
       | Some args =>
           if negb (truthy (lookup "latitude" args))
           then McpError InvalidParams "Missing required parameter: latitude"
           else McpError InvalidParams "Missing required parameter: longitude"
       end.

(** The console line of the [catch] block. *)
Definition failure_logged (t : thrown) : event :=
  ConsoleError [Text "[Error] Failed to fetch data:"; ShownThrown t].

Definition no_current_data : error :=
  Error "No current weather data returned from Weather API".

(** The tools answered by the two [ListToolsRequestSchema] handlers: the
    literal of [setupToolHandlers] in [main.ts], and [weatherTool]. *)
Module Registry.

Definition stdio_tool : JSON :=
  JObj [ ("name", JStr "get-weather");
         ("description", JStr "Get weather wind e etc..");
         ("inputSchema",
          JObj [ ("type", JStr "object");
                 ("properties",
                  JObj [ ("latitude",
                          JObj [ ("type", JStr "string");
                                 ("description", JStr "Latitude") ]);
                         ("longitude",
                          JObj [ ("type", JStr "string");
                                 ("description", JStr "Longitude") ]) ]);
                 ("required", JArr [JStr "latitude"; JStr "longitude"]) ]) ].

Definition stdio_listTools : JSON := JObj [("tools", JArr [stdio_tool])].

Definition http_listTools : JSON := JObj [("tools", JArr [weatherTool])].

(** The strings of an array of JSON values. *)
Definition strings_of (items : list JSON) : list string :=
  flat_map (fun item => match item with JStr s => [s] | _ => [] end) items.

(** The names of the tools of a list-tools result. *)
Definition tool_names (result : JSON) : list string :=
  match get_member (Some result) "tools" with
  | Some (JArr tools) =>
      flat_map (fun tool => match get_member (Some tool) "name" with
                            | Some (JStr n) => [n]
                            | _ => []
                            end) tools
  | _ => []
  end.

(** The parameters that the schema of a listed tool requires. *)
Definition required_parameters (result : JSON) (tool : string) : list string :=
  match get_member (Some result) "tools" with
  | Some (JArr tools) =>
      flat_map (fun t =>
                  match get_member (Some t) "name" with
                  | Some (JStr n) =>
                      if String.eqb n tool then
                        match get_member (get_member (Some t) "inputSchema") "required" with
                        | Some (JArr items) => strings_of items
                        | _ => []
                        end
                      else []
                  | _ => []
                  end) tools
  | _ => []
  end.

End Registry.

(* ===================================================================== *)
(** ** Further vocabulary: the session layer *)
(* ===================================================================== *)

Definition internal_server_error (env : Environment) : JSON :=
  createErrorResponse env "Internal server error.".

Definition get_prologue (req : HttpRequest) : list event :=
  [ ConsoleLog [Text "get request received"];
    ConsoleLog [Text "Establishing SSE stream for session ";
                Shown (option_map JStr (session_header req))] ].

(** The request passes the session check of both verbs. *)
Definition session_check (s : MCPServer) (req : HttpRequest) : bool :=
  truthy_id (session_header req) && slot_truthy (read s (session_header req)).

(** No transport is registered under two session identifiers. *)
Definition one_session_per_transport (s : MCPServer) : Prop :=
  forall k1 k2 t,
    lookup k1 (transports s) = Some t ->
    lookup k2 (transports s) = Some t ->
    k1 = k2.

(** A stream interval is live before its second firing and cleared from
    then on. *)
Definition stream_ok (st : StreamTimer) : Prop :=
  (cleared st = false /\ messageCount st < 2) \/
  (cleared st = true /\ messageCount st = 2).

(** The state of a new server after a schedule of calls. *)
Definition state_reached (schedule : list (Environment * call)) : MCPServer :=
  snd (run_all schedule fresh_server).

(** The effects of a POST that is handed to the transport [t]. *)
Definition delegated (env : Environment) (t : transport) (req : HttpRequest)
  : list event :=
  post_prologue req ++
  TransportHandleRequest t (body req) ::
  match handleRequest_throws env t (body req) with
  | Some error => server_error env error
  | None => []
  end.

(** A sample environment whose transports throw in [handleRequest]. *)
Definition env_handle_fails : Environment :=
  mkEnv initialize_shaped (fun _ _ => Some stream_closed) (fun _ => None)
    (fun _ _ => Some "3f2b8c1e-0d4a-4c77-9a51-6e2f0b7d9c10")
    (fun _ _ => None) None
    "b7a1d5e2-91c3-4f0e-8a66-2d4c9e1f7a03" "2025-01-01T00:00:00.000Z"
    (fun _ _ => false).

Definition first_session : string := "3f2b8c1e-0d4a-4c77-9a51-6e2f0b7d9c10".

(* ===================================================================== *)
(** ** The stdio process, [main.ts] *)
(* ===================================================================== *)

Module StdioMain.

(** Whether the SDK calls of [main.ts] throw. *)
Record Environment : Type := mkEnv {
  connect_throws : option thrown;     (* server.connect(transport) *)
  close_throws : option thrown        (* server.close() *)
}.

(** The one [StdioServerTransport] of the process. *)
Definition stdio_transport : transport := 0.

(** [new Weather()]: the set-up line and the two request handlers. *)
Definition constructor : M unit :=
  emit (ConsoleError [Text "[Setup] Initializing Weather MCP server..."]) ;;
  emit (SetListToolsHandler [Registry.stdio_tool]) ;;
  emit SetCallToolHandler.

(** [run()]. *)
Definition run (env : Environment) : M unit :=
  emit (ServerConnect stdio_transport) ;;
  await_outcome (connect_throws env) ;;
  emit (ConsoleError [Text "Weather MCP server running on stdio"]).

(** The module body: [new Weather()], then
    [server.run().catch(console.error)]. *)
Definition main (env : Environment) : M unit :=
  constructor ;;
  try_catch (run env) (fun error => emit (ConsoleError [ShownThrown error])).

(** The [SIGINT] listener; its value is the code given to
    [process.exit]. *)
Definition onSIGINT (env : Environment) : M Z :=
  emit ServerClose ;;
  await_outcome (close_throws env) ;;
  ret 0%Z.

End StdioMain.

Definition is_cleanup (c : call) : bool :=
  match c with Cleanup => true | _ => false end.

(** The session header is absent, empty, or names neither a registered
    session nor a member of [Object.prototype]. *)
Definition unknown_session (s : MCPServer) (req : HttpRequest) : Prop :=
  match session_header req with
  | None => True
  | Some k =>
      k = "" \/
      (lookup k (transports s) = None /\ ~ In k object_prototype_members)
  end.

(* ===================================================================== *)
(** ** The tool-call handler *)
(* ===================================================================== *)

Section ToolCall.

Variable net : upstream.

Lemma callTool_agree (request : CallToolRequest) :
  Http.callTool net request = Stdio.callTool net request.
Proof. reflexivity. Qed.

Lemma both_handlers_intro request (Q : M value -> Prop) :
  Q (Stdio.callTool net request) -> both_handlers net request Q.
Proof. intros H. split; [exact H | rewrite callTool_agree; exact H]. Qed.

Lemma includes_get_weather (n : string) :
  includes ["get-weather"] n = String.eqb n "get-weather".
Proof. unfold includes. simpl. apply orb_false_r. Qed.

Lemma fetch_failure_is_internal (e : error) :
  has_code InternalError (fetch_failure e) /\
  ~ has_code MethodNotFound (fetch_failure e) /\
  ~ has_code InvalidParams (fetch_failure e).
Proof. unfold has_code; simpl. repeat split; discriminate. Qed.

(** The run on a name outside the registry. *)
Lemma callTool_unknown_name (request : CallToolRequest) :
  name request <> "get-weather" ->
  Stdio.callTool net request =
    ( [ConsoleError [Text "[Error] Failed to fetch data:";
                     ShownThrown (ThrownError
                                    (McpError MethodNotFound
                                       ("Unknown tool: " ++ name request)))]],
      inr (ThrownError
             (fetch_failure (McpError MethodNotFound
                               ("Unknown tool: " ++ name request)))) ).
Proof.
  intros Hname. unfold Stdio.callTool.
  rewrite includes_get_weather.
  apply String.eqb_neq in Hname. rewrite Hname. reflexivity.
Qed.

(** The run when [arguments] is absent. *)
Lemma callTool_no_arguments :
  Stdio.callTool net (mkCall "get-weather" None) =
    ( [ConsoleError [Text "[Error] Failed to fetch data:";
                     ShownThrown (ThrownError (TypeError_undefined_property "latitude"))]],
      inr (ThrownError (fetch_failure (TypeError_undefined_property "latitude"))) ).
Proof. reflexivity. Qed.

(** The run when [latitude] is falsy. *)
Lemma callTool_latitude_falsy (args : list (string * JSON)) :
  truthy (lookup "latitude" args) = false ->
  Stdio.callTool net (mkCall "get-weather" (Some args)) =
    ( [ConsoleError [Text "[Error] Failed to fetch data:";
                     ShownThrown (ThrownError
                                    (McpError InvalidParams
                                       "Missing required parameter: latitude"))]],
      inr (ThrownError
             (fetch_failure (McpError InvalidParams
                               "Missing required parameter: latitude"))) ).
Proof.
  intros Hlat. unfold Stdio.callTool. simpl. rewrite Hlat. reflexivity.
Qed.

(** The run when [latitude] is truthy and [longitude] is falsy. *)
Lemma callTool_longitude_falsy (args : list (string * JSON)) :
  truthy (lookup "latitude" args) = true ->
  truthy (lookup "longitude" args) = false ->
  Stdio.callTool net (mkCall "get-weather" (Some args)) =
    ( [ConsoleError [Text "[Error] Failed to fetch data:";
                     ShownThrown (ThrownError
                                    (McpError InvalidParams
                                       "Missing required parameter: longitude"))]],
      inr (ThrownError
             (fetch_failure (McpError InvalidParams
                               "Missing required parameter: longitude"))) ).
Proof.
  intros Hlat Hlon. unfold Stdio.callTool. simpl. rewrite Hlat, Hlon. reflexivity.
Qed.

(** The run when a truthy coordinate does not convert to a string: the
    template literal of the log line throws before the GET. *)
Lemma callTool_unprintable (args : list (string * JSON)) :
  truthy (lookup "latitude" args) = true ->
  truthy (lookup "longitude" args) = true ->
  printable (lookup "latitude" args) && printable (lookup "longitude" args) = false ->
  Stdio.callTool net (mkCall "get-weather" (Some args)) =
    ( [ConsoleError [Text "[Error] Failed to fetch data:";
                     ShownThrown (ThrownError TypeError_to_primitive)]],
      inr (ThrownError (fetch_failure TypeError_to_primitive)) ).
Proof.
  intros Hlat Hlon Hp. unfold Stdio.callTool. simpl. rewrite Hlat, Hlon. simpl.
  unfold printable in Hp. unfold interpolate.
  destruct (lookup "latitude" args) as [j1 |]; [| discriminate Hlat].
  destruct (lookup "longitude" args) as [j2 |]; [| discriminate Hlon].
  destruct (ToString_throws j1); [reflexivity |].
  destruct (ToString_throws j2); [reflexivity | discriminate Hp].
Qed.

(** The run once both coordinates are truthy and convert to strings: one
    GET, then the outcome follows the upstream's. *)
Lemma callTool_fetch (args : list (string * JSON)) :
  truthy (lookup "latitude" args) = true ->
  truthy (lookup "longitude" args) = true ->
  printable (lookup "latitude" args) = true ->
  printable (lookup "longitude" args) = true ->
  let latitude := lookup "latitude" args in
  let longitude := lookup "longitude" args in
  Stdio.callTool net (mkCall "get-weather" (Some args)) =
    match answer net args with
    | Resolves data =>
        if negb (truthy data) || negb (truthy (get_member data "current"))
        then
          let e := Error "No current weather data returned from Weather API" in
          ( fetching latitude longitude ++
              [ConsoleError [Text "[Error] Failed to fetch data:";
                             ShownThrown (ThrownError e)]],
            inr (ThrownError (fetch_failure e)) )
        else (fetching latitude longitude, inl undefined)
    | Rejects (ThrownError e) =>
        ( fetching latitude longitude ++
            [ConsoleError [Text "[Error] Failed to fetch data:";
                           ShownThrown (ThrownError e)]],
          inr (ThrownError (fetch_failure e)) )
    | Rejects (ThrownValue v) =>
        (fetching latitude longitude, inr (ThrownValue v))
    end.
Proof.
  intros Hlat Hlon Plat Plon. unfold Stdio.callTool, axios_get, answer. simpl.
  rewrite Hlat, Hlon. simpl.
  assert (Ilat : interpolate (lookup "latitude" args) = ret tt).
  { unfold printable in Plat. unfold interpolate.
    destruct (lookup "latitude" args) as [j |]; [| reflexivity].
    apply negb_true_iff in Plat. now rewrite Plat. }
  assert (Ilon : interpolate (lookup "longitude" args) = ret tt).
  { unfold printable in Plon. unfold interpolate.
    destruct (lookup "longitude" args) as [j |]; [| reflexivity].
    apply negb_true_iff in Plon. now rewrite Plon. }
  rewrite Ilat, Ilon. simpl.
  destruct (net Stdio.axiosInstance "/forecast" _) as [data | [e | v]]; simpl.
  - destruct (negb (truthy data) || negb (truthy (get_member data "current")));
      reflexivity.
  - reflexivity.
  - reflexivity.
Qed.


(** C1 (as the code behaves): a call naming a tool other than
    [get-weather] issues no network call in either server, but the
    [MethodNotFound] error it raises is caught by the handler's own
    [catch] block and reaches the caller as an [InternalError] whose
    message quotes the original one. *)
Theorem C1_unknown_tool_reaches_caller_as_internal_error
    (request : CallToolRequest) :
  name request <> "get-weather" ->
  let raised := McpError MethodNotFound ("Unknown tool: " ++ name request) in
  both_handlers net request
    (fun run => rejects_with (fetch_failure raised) run /\ no_network_call run) /\
  has_code MethodNotFound raised /\
  has_code InternalError (fetch_failure raised) /\
  ~ has_code MethodNotFound (fetch_failure raised).
Proof.
  intros Hname raised. split.
  - apply both_handlers_intro.
    unfold rejects_with, no_network_call, network_calls.
    rewrite (callTool_unknown_name request Hname). split; reflexivity.
  - split; [reflexivity |].
    destruct (fetch_failure_is_internal raised) as (Hi & Hm & _). now split.
Qed.

(** C2 (as the code behaves): for [get-weather], the first falsy
    required parameter, latitude before longitude, raises an
    [InvalidParams] error naming it before any network call; the
    handler's own [catch] block turns it into an [InternalError] whose
    message quotes the original one. *)
Theorem C2_missing_parameter_reaches_caller_as_internal_error
    (args : list (string * JSON)) (parameter : string) :
  first_missing args = Some parameter ->
  let raised :=
    McpError InvalidParams ("Missing required parameter: " ++ parameter) in
  both_handlers net (mkCall "get-weather" (Some args))
    (fun run => rejects_with (fetch_failure raised) run /\ no_network_call run) /\
  has_code InvalidParams raised /\
  has_code InternalError (fetch_failure raised) /\
  ~ has_code InvalidParams (fetch_failure raised).
Proof.
  intros Hmiss raised. unfold first_missing in Hmiss. split.
  - apply both_handlers_intro.
    unfold rejects_with, no_network_call, network_calls, raised.
    destruct (truthy (lookup "latitude" args)) eqn:Hlat; simpl in Hmiss.
    + destruct (truthy (lookup "longitude" args)) eqn:Hlon; simpl in Hmiss;
        [discriminate |].
      injection Hmiss as <-.
      rewrite (callTool_longitude_falsy args Hlat Hlon). split; reflexivity.
    + injection Hmiss as <-.
      rewrite (callTool_latitude_falsy args Hlat). split; reflexivity.
  - split; [reflexivity |].
    destruct (fetch_failure_is_internal raised) as (Hi & _ & Hp). now split.
Qed.

(** C3: once the request reaches the upstream (both coordinates are
    truthy and convert to strings for the log line), a resolved response
    without a [current] member makes both handlers reject with an
    [InternalError] quoting the data error, and every [Error] with which
    the GET rejects is wrapped the same way; the wrapped error consists
    of the code, the fixed prefix followed by the original message, and
    no [data]. *)
Theorem C3_fetch_errors_become_internal_errors (args : list (string * JSON)) :
  truthy (lookup "latitude" args) = true ->
  truthy (lookup "longitude" args) = true ->
  printable (lookup "latitude" args) = true ->
  printable (lookup "longitude" args) = true ->
  let request := mkCall "get-weather" (Some args) in
  (forall data,
      answer net args = Resolves data ->
      get_member data "current" = undefined ->
      both_handlers net request
        (rejects_with
           (fetch_failure (Error "No current weather data returned from Weather API")))) /\
  (forall e,
      answer net args = Rejects (ThrownError e) ->
      both_handlers net request (rejects_with (fetch_failure e))) /\
  (forall e,
      fetch_failure e =
        mkError "McpError"
          ("MCP error -32603: Failed to fetch data: " ++ err_message e)
          (Some (-32603)%Z) undefined).
Proof.
  intros Hlat Hlon Plat Plon request. split; [| split].
  - intros data Hans Hcur. apply both_handlers_intro. unfold rejects_with, request.
    rewrite (callTool_fetch args Hlat Hlon Plat Plon). cbv zeta. rewrite Hans, Hcur.
    simpl truthy. rewrite orb_true_r. reflexivity.
  - intros e Hans. apply both_handlers_intro. unfold rejects_with, request.
    rewrite (callTool_fetch args Hlat Hlon Plat Plon). cbv zeta. rewrite Hans.
    reflexivity.
  - intros e. reflexivity.
Qed.

(** C4: for coordinates that are truthy and convert to strings (as every
    non-empty string does) and a resolved upstream response whose
    [current] member is an object, both handlers write the log line,
    issue the one GET to [/forecast] with the coordinates and the two
    fixed field lists, and return [undefined]: no error and no result
    payload. *)
Theorem C4_success_returns_no_payload
    (args : list (string * JSON)) (data : value) (current : list (string * JSON)) :
  truthy (lookup "latitude" args) = true ->
  truthy (lookup "longitude" args) = true ->
  printable (lookup "latitude" args) = true ->
  printable (lookup "longitude" args) = true ->
  answer net args = Resolves data ->
  get_member data "current" = Some (JObj current) ->
  both_handlers net (mkCall "get-weather" (Some args))
    (fun run =>
       run =
         ( [ ConsoleError [ Text "[API] Fetching Weather from: ";
                            Shown (lookup "latitude" args);
                            Text " and ";
                            Shown (lookup "longitude" args) ];
             AxiosGet
               (mkAxios 5000%Z "https://api.open-meteo.com/v1"
                  [("Accept", "application/json");
                   ("Content-Type", "application/json")])
               "/forecast"
               [ ("latitude", lookup "latitude" args);
                 ("longitude", lookup "longitude" args);
                 ("current", Some (JStr "temperature_2m,wind_speed_10m"));
                 ("hourly",
                  Some (JStr "temperature_2m,relative_humidity_2m,wind_speed_10m")) ] ],
           inl undefined )).
Proof.
  intros Hlat Hlon Plat Plon Hans Hcur. apply both_handlers_intro.
  rewrite (callTool_fetch args Hlat Hlon Plat Plon). cbv zeta. rewrite Hans, Hcur.
  destruct data as [[ | | | | | fields] | ]; simpl in Hcur; try discriminate.
  reflexivity.
Qed.

End ToolCall.

(** C10: the stdio handler and the HTTP handler are the same function of
    the upstream and the request: the same effects in the same order (name
    check, validation, the GET with its configuration and query) and the
    same result or error. *)
Theorem C10_handlers_coincide :
  Stdio.callTool = Http.callTool /\
  Stdio.axiosInstance = Http.axiosInstance /\
  (forall net request,
      effects (Stdio.callTool net request) = effects (Http.callTool net request) /\
      network_calls (Stdio.callTool net request) =
        network_calls (Http.callTool net request) /\
      outcome (Stdio.callTool net request) = outcome (Http.callTool net request)).
Proof.
  split; [reflexivity |]. split; [reflexivity |].
  intros net request. rewrite (callTool_agree net request). repeat split.
Qed.

Lemma C1_witness :
  name (mkCall "get-forecast" (Some berlin)) <> "get-weather" /\
  both_handlers net_current (mkCall "get-forecast" (Some berlin))
    (fun run =>
       rejects_with
         (fetch_failure (McpError MethodNotFound "Unknown tool: get-forecast")) run /\
       no_network_call run).
Proof.
  assert (H : name (mkCall "get-forecast" (Some berlin)) <> "get-weather")
    by (simpl; discriminate).
  split; [exact H |].
  exact (proj1 (C1_unknown_tool_reaches_caller_as_internal_error net_current
                  (mkCall "get-forecast" (Some berlin)) H)).
Defined.

Lemma C2_witness :
  first_missing [("longitude", JStr "13.41")] = Some "latitude" /\
  both_handlers net_current (mkCall "get-weather" (Some [("longitude", JStr "13.41")]))
    (fun run =>
       rejects_with
         (fetch_failure (McpError InvalidParams "Missing required parameter: latitude"))
         run /\
       no_network_call run).
Proof.
  split; [reflexivity |].
  exact (proj1 (C2_missing_parameter_reaches_caller_as_internal_error net_current
                  [("longitude", JStr "13.41")] "latitude" eq_refl)).
Defined.

Lemma C3_witness :
  truthy (lookup "latitude" berlin) = true /\
  truthy (lookup "longitude" berlin) = true /\
  printable (lookup "latitude" berlin) = true /\
  printable (lookup "longitude" berlin) = true /\
  answer net_no_current berlin = Resolves (Some (JObj [("hourly", JObj [])])) /\
  both_handlers net_no_current (mkCall "get-weather" (Some berlin))
    (rejects_with
       (fetch_failure (Error "No current weather data returned from Weather API"))) /\
  both_handlers net_timeout (mkCall "get-weather" (Some berlin))
    (rejects_with
       (fetch_failure (mkError "AxiosError" "timeout of 5000ms exceeded" None undefined))).
Proof.
  split; [reflexivity |]. split; [reflexivity |]. split; [reflexivity |].
  split; [reflexivity |]. split; [reflexivity |]. split.
  - exact (proj1 (C3_fetch_errors_become_internal_errors net_no_current berlin
                    eq_refl eq_refl eq_refl eq_refl)
             (Some (JObj [("hourly", JObj [])])) eq_refl eq_refl).
  - exact (proj1 (proj2 (C3_fetch_errors_become_internal_errors net_timeout berlin
                           eq_refl eq_refl eq_refl eq_refl))
             (mkError "AxiosError" "timeout of 5000ms exceeded" None undefined) eq_refl).
Defined.

Lemma C4_witness :
  truthy (lookup "latitude" berlin) = true /\
  truthy (lookup "longitude" berlin) = true /\
  printable (lookup "latitude" berlin) = true /\
  printable (lookup "longitude" berlin) = true /\
  both_handlers net_current (mkCall "get-weather" (Some berlin))
    (fun run => outcome run = inl undefined /\
                network_calls run =
                  [ AxiosGet Stdio.axiosInstance "/forecast"
                      [ ("latitude", Some (JStr "52.52"));
                        ("longitude", Some (JStr "13.41"));
                        ("current", Some (JStr "temperature_2m,wind_speed_10m"));
                        ("hourly",
                         Some (JStr
                                 "temperature_2m,relative_humidity_2m,wind_speed_10m")) ] ]).
Proof.
  split; [reflexivity |]. split; [reflexivity |]. split; [reflexivity |].
  split; [reflexivity |].
  pose proof (C4_success_returns_no_payload net_current berlin
                (Some (JObj [("current", JObj [("temperature_2m", JNum (43 # 2))])]))
                [("temperature_2m", JNum (43 # 2))]
                eq_refl eq_refl eq_refl eq_refl eq_refl eq_refl) as [H1 H2].
  split; [rewrite H1 | rewrite H2]; split; reflexivity.
Defined.

(* ===================================================================== *)
(** ** The session layer *)
(* ===================================================================== *)

Section SessionMap.

Context {A : Type}.

Lemma lookup_assign_same (k : string) (v : A) (l : list (string * A)) :
  lookup k (assign k v l) = Some v.
Proof.
  induction l as [| [k' v'] l IH]; simpl.
  - now rewrite String.eqb_refl.
  - destruct (String.eqb k k') eqn:E; simpl; rewrite ?String.eqb_refl, ?E; auto.
Qed.

Lemma lookup_assign_other (k k' : string) (v : A) (l : list (string * A)) :
  k' <> k -> lookup k' (assign k v l) = lookup k' l.
Proof.
  intros Hne. apply String.eqb_neq in Hne.
  induction l as [| [k0 v0] l IH]; simpl.
  - now rewrite Hne.
  - destruct (String.eqb k k0) eqn:E; simpl.
    + apply String.eqb_eq in E. subst k0. now rewrite Hne.
    + now rewrite IH.
Qed.

Lemma lookup_assign_defined (k k' : string) (v : A) (l : list (string * A)) :
  lookup k' l <> None -> lookup k' (assign k v l) <> None.
Proof.
  intros Hdef. destruct (String.eqb k' k) eqn:E.
  - apply String.eqb_eq in E. subst k'. rewrite lookup_assign_same. discriminate.
  - apply String.eqb_neq in E. now rewrite lookup_assign_other.
Qed.

Lemma lookup_In (k : string) (v : A) (l : list (string * A)) :
  lookup k l = Some v -> In (k, v) l.
Proof.
  induction l as [| [k' v'] l IH]; simpl; [discriminate |].
  destruct (String.eqb k k') eqn:E.
  - apply String.eqb_eq in E. intros [= ->]. subst. now left.
  - intros H. right. now apply IH.
Qed.

End SessionMap.

Lemma isInitializeRequest_batch (env : Environment) (items : list JSON) :
  isInitializeRequest env (Some (JArr items)) = true <->
  exists item, In item items /\ safeParse env (Some item) = true.
Proof. unfold isInitializeRequest. apply existsb_exists. Qed.

Lemma truthy_id_spec (h : option string) :
  truthy_id h = true <-> exists k, h = Some k /\ k <> "".
Proof.
  destruct h as [k |]; simpl.
  - rewrite negb_true_iff, String.eqb_neq. split.
    + intros H. now exists k.
    + now intros (k' & [= <-] & H).
  - split; [discriminate | now intros (k & H & _)].
Qed.

(** Unfolding a method down to the oracle calls it makes. *)
Ltac unfold_server :=
  cbv beta iota zeta delta
    [state_after effects_of outcome_of run handlePostRequest handleGetRequest
     cleanup tool_fire tool_callback stream_fire stream_callback streamMessages
     transport_handleRequest clearInterval increment setInterval_stream
     log log_error ptry ptry_with res_json headersSent existsb
     pbind pret lift get modify await_outcome detached
     sendNotification effects outcome no_session_id qualifies
     ret emit bind throw throw_error try_catch app fst snd setToolSchema] in *.

(** The POST branch that answers [400]. *)
Lemma POST_bad_request (env : Environment) (s : MCPServer) (req : HttpRequest) :
  truthy_id (session_header req) && slot_truthy (read s (session_header req)) = false ->
  qualifies env req = false ->
  run env (POST req) s =
    ( ( [ ConsoleLog [Text "post request received"];
          ConsoleLog [Text "body: "; Shown (body req)];
          ResJson 400 (bad_request env) ],
        inl tt ),
      s ).
Proof.
  intros Hreuse Hq. unfold_server. rewrite Hreuse, Hq. reflexivity.
Qed.

(** The GET branch that answers [400]. *)
Lemma GET_bad_request (env : Environment) (s : MCPServer) (req : HttpRequest) :
  truthy_id (session_header req) && slot_truthy (read s (session_header req)) = false ->
  run env (GET req) s =
    ( ( [ ConsoleLog [Text "get request received"];
          ResJson 400 (bad_request env) ],
        inl tt ),
      s ).
Proof.
  intros Hreuse. unfold_server.
  rewrite <- negb_andb, Hreuse. reflexivity.
Qed.

(** A header that names neither a registered session nor a member of
    [Object.prototype] is answered with [400] by both verbs. *)
Lemma unknown_session_rejected (env : Environment) (s : MCPServer) (req : HttpRequest) :
  names_no_session s req ->
  (forall k, session_header req = Some k -> includes object_prototype_members k = false) ->
  run env (GET req) s =
    (([ConsoleLog [Text "get request received"]; ResJson 400 (bad_request env)],
      inl tt), s) /\
  (isInitializeRequest env (body req) = false ->
   run env (POST req) s =
     (([ConsoleLog [Text "post request received"];
        ConsoleLog [Text "body: "; Shown (body req)];
        ResJson 400 (bad_request env)], inl tt), s)).
Proof.
  intros Hno Hproto.
  assert (Hreuse : truthy_id (session_header req)
                   && slot_truthy (read s (session_header req)) = false).
  { unfold names_no_session in Hno. destruct (session_header req) as [k |]; [| reflexivity].
    unfold read, transports_get. rewrite Hno, (Hproto k eq_refl). apply andb_false_r. }
  split.
  - now apply GET_bad_request.
  - intros Hinit. apply POST_bad_request; [exact Hreuse |].
    unfold qualifies. rewrite Hinit. apply andb_false_r.
Qed.

(** The POST branch that constructs a transport. *)
Lemma POST_new_transport (env : Environment) (s : MCPServer) (req : HttpRequest) :
  qualifies env req = true ->
  let fresh := created s in
  let s1 := with_created (S fresh) s in
  run env (POST req) s =
    match connect_throws env fresh with
    | Some error =>
        ((post_prologue req ++ ServerConnect fresh :: server_error env error, inl tt), s1)
    | None =>
        match handleRequest_throws env fresh (body req) with
        | Some error =>
            ((post_prologue req ++
                ServerConnect fresh :: TransportHandleRequest fresh (body req) ::
                server_error env error, after_500 env fresh (body req)), s1)
        | None =>
            ((post_prologue req ++
                [ServerConnect fresh; TransportHandleRequest fresh (body req)], inl tt),
             match sessionId_after env fresh (body req) with
             | Some k =>
                 if truthy_id (Some k) then with_transports (assign k fresh) s1 else s1
             | None => s1
             end)
        end
    end.
Proof.
  intros Hq fresh s1. unfold qualifies, no_session_id in Hq.
  apply andb_true_iff in Hq. destruct Hq as [Hid Hinit].
  apply negb_true_iff in Hid.
  unfold_server. rewrite Hid, Hinit. cbv beta iota zeta delta [andb negb].
  fold fresh.
  destruct (connect_throws env fresh); [reflexivity |].
  destruct (handleRequest_throws env fresh (body req)).
  - unfold after_500. cbn [orb]. rewrite orb_false_r.
    destruct (headersSent_after env fresh (body req)); reflexivity.
  - destruct (sessionId_after env fresh (body req)) as [k |]; [| reflexivity].
    destruct (truthy_id (Some k)); reflexivity.
Qed.

(** A POST that does not qualify leaves the server as it was and
    connects nothing. *)
Lemma POST_not_qualifying (env : Environment) (s : MCPServer) (req : HttpRequest) :
  qualifies env req = false ->
  state_after env (POST req) s = s /\
  forall t, ~ In (ServerConnect t) (effects_of env (POST req) s).
Proof.
  intros Hq.
  destruct (truthy_id (session_header req)
            && slot_truthy (read s (session_header req))) eqn:Hreuse.
  - unfold_server. rewrite Hreuse.
    destruct (read s (session_header req)) as [t | m |].
    + destruct (handleRequest_throws env t (body req)); cbn [orb];
        rewrite ?orb_false_r;
        try destruct (headersSent_after env t (body req));
        (split; [reflexivity |]);
        intros t' Hin; simpl in Hin; intuition discriminate.
    + split; [reflexivity |]. intros t' Hin; simpl in Hin; intuition discriminate.
    + split; [reflexivity |]. intros t' Hin; simpl in Hin; intuition discriminate.
  - unfold state_after, effects_of. rewrite (POST_bad_request env s req Hreuse Hq).
    split; [reflexivity |]. intros t' Hin; simpl in Hin; intuition discriminate.
Qed.

Lemma registration_spec (env : Environment) (s : MCPServer) (req : HttpRequest)
    (k : string) :
  registration env s req = Some k <->
  qualifies env req = true /\
  connect_throws env (created s) = None /\
  handleRequest_throws env (created s) (body req) = None /\
  sessionId_after env (created s) (body req) = Some k /\
  k <> "".
Proof.
  unfold registration. destruct (qualifies env req).
  - destruct (connect_throws env (created s)).
    { split; [discriminate | intros (_ & H & _); discriminate]. }
    destruct (handleRequest_throws env (created s) (body req)).
    { split; [discriminate | intros (_ & _ & H & _); discriminate]. }
    destruct (sessionId_after env (created s) (body req)) as [k' |].
    2:{ split; [discriminate | intros (_ & _ & _ & H & _); discriminate]. }
    destruct (String.eqb k' "") eqn:E.
    + apply String.eqb_eq in E. subst k'.
      split; [discriminate | intros (_ & _ & _ & [= <-] & H); now elim H].
    + apply String.eqb_neq in E. split.
      * intros [= <-]. now repeat split.
      * intros (_ & _ & _ & [= <-] & _). reflexivity.
  - split; [discriminate | intros (H & _); discriminate].
Qed.

Lemma POST_transports (env : Environment) (s : MCPServer) (req : HttpRequest) :
  transports (state_after env (POST req) s) =
    match registration env s req with
    | Some k => assign k (created s) (transports s)
    | None => transports s
    end.
Proof.
  unfold registration. destruct (qualifies env req) eqn:Hq.
  - unfold state_after. rewrite (POST_new_transport env s req Hq). cbv zeta.
    destruct (connect_throws env (created s)); [reflexivity |].
    destruct (handleRequest_throws env (created s) (body req)); [reflexivity |].
    cbn [snd].
    destruct (sessionId_after env (created s) (body req)) as [k |]; [| reflexivity].
    cbn [truthy_id]. destruct (String.eqb k ""); reflexivity.
  - now rewrite (proj1 (POST_not_qualifying env s req Hq)).
Qed.

(** C5 (amended): a POST makes the server construct and connect a
    transport exactly when it carries no session identifier and its body
    is initialize-shaped, a batch qualifying through any one element.  The
    transport is entered in the session map exactly when, in addition, the
    SDK calls return and the transport then reports a non-empty session
    identifier: the map then gains that identifier, bound to the new
    transport, and every other session stays as it was; otherwise the map
    is unchanged.  A POST without session identifier whose body does not
    qualify is answered with the 400 error body and changes nothing. *)
Theorem C5_session_creation (env : Environment) (s : MCPServer) (req : HttpRequest) :
  well_formed s ->
  let fresh := created s in
  let s' := state_after env (POST req) s in
  (In (ServerConnect fresh) (effects_of env (POST req) s) <-> qualifies env req = true) /\
  (forall k,
      qualifies env req = true /\
      connect_throws env fresh = None /\
      handleRequest_throws env fresh (body req) = None /\
      sessionId_after env fresh (body req) = Some k /\
      k <> ""
      <->
      lookup k (transports s') = Some fresh) /\
  (forall k,
      lookup k (transports s') = Some fresh ->
      transports s' = assign k fresh (transports s) /\
      (forall k', k' <> k -> lookup k' (transports s') = lookup k' (transports s))) /\
  ((forall k, lookup k (transports s') <> Some fresh) -> transports s' = transports s) /\
  (forall k, lookup k (transports s) <> Some fresh) /\
  (no_session_id req = true ->
   isInitializeRequest env (body req) = false ->
   responses (effects_of env (POST req) s) = [(400%Z, bad_request env)] /\ s' = s) /\
  (forall items,
      isInitializeRequest env (Some (JArr items)) = true <->
      exists item, In item items /\ safeParse env (Some item) = true).
Proof.
  intros Hwf fresh s'.
  assert (Hold : forall k, lookup k (transports s) <> Some fresh).
  { intros k Hk. apply Hwf in Hk. unfold fresh in Hk. lia. }
  assert (Htr : transports s' =
                match registration env s req with
                | Some k => assign k fresh (transports s)
                | None => transports s
                end) by apply POST_transports.
  assert (Hreg : forall k, lookup k (transports s') = Some fresh ->
                           registration env s req = Some k).
  { intros k Hk. rewrite Htr in Hk.
    destruct (registration env s req) as [k0 |]; [| now apply Hold in Hk].
    destruct (string_dec k k0) as [-> | Hne]; [reflexivity |].
    rewrite lookup_assign_other in Hk by exact Hne. now apply Hold in Hk. }
  split; [| split; [| split; [| split; [| split; [| split]]]]].
  - destruct (qualifies env req) eqn:Hq.
    + split; [reflexivity |]. intros _. unfold effects_of.
      rewrite (POST_new_transport env s req Hq). cbv zeta. fold fresh.
      destruct (connect_throws env fresh);
        [| destruct (handleRequest_throws env fresh (body req))];
        simpl; auto.
    + split; [| discriminate]. intros Hin. exfalso.
      exact (proj2 (POST_not_qualifying env s req Hq) fresh Hin).
  - intros k. split.
    + intros Hk. apply (registration_spec env s req k) in Hk.
      rewrite Htr, Hk. apply lookup_assign_same.
    + intros Hk. apply (registration_spec env s req k). now apply Hreg.
  - intros k Hk. apply Hreg in Hk. rewrite Htr, Hk. split; [reflexivity |].
    intros k' Hne. now apply lookup_assign_other.
  - intros Hnone. rewrite Htr.
    destruct (registration env s req) as [k |] eqn:Hk; [| reflexivity].
    exfalso. apply (Hnone k). rewrite Htr. rewrite ?Hk. apply lookup_assign_same.
  - exact Hold.
  - intros Hid Hno.
    assert (Hq : qualifies env req = false).
    { unfold qualifies. rewrite Hno. apply andb_false_r. }
    split; [| exact (proj1 (POST_not_qualifying env s req Hq))].
    unfold effects_of.
    rewrite (POST_bad_request env s req); [reflexivity | | exact Hq].
    unfold no_session_id in Hid. apply negb_true_iff in Hid. now rewrite Hid.
  - apply isInitializeRequest_batch.
Qed.

(** The sample schema check accepts the sample initialize request and
    rejects an empty object and an initialize message without [params]. *)
Lemma initialize_shaped_samples :
  initialize_shaped initialize_body = true /\
  initialize_shaped (Some (JObj [])) = false /\
  initialize_shaped
    (Some (JObj [("jsonrpc", JStr "2.0"); ("id", JNum 1); ("method", JStr "initialize")]))
  = false.
Proof. repeat split. Qed.

(** C5, as stated, fails: a POST without session identifier and with an
    initialize request as body, whose fresh transport answers the request
    itself and ends without a session identifier, makes the server
    construct and connect a transport and registers nothing. *)
Lemma C5_counterexample_transport_without_session_id :
  let req := mkRequest None initialize_body in
  no_session_id req = true /\
  isInitializeRequest env_no_session_id (body req) = true /\
  transports (state_after env_no_session_id (POST req) fresh_server) = [] /\
  effects_of env_no_session_id (POST req) fresh_server =
    post_prologue req ++ [ServerConnect 0; TransportHandleRequest 0 initialize_body].
Proof. repeat split. Qed.

Lemma C5_witness :
  well_formed fresh_server /\
  lookup "3f2b8c1e-0d4a-4c77-9a51-6e2f0b7d9c10"
    (transports (state_after env_ok (POST (mkRequest None initialize_body))
                   fresh_server))
  = Some (created fresh_server).
Proof.
  assert (Hwf : well_formed fresh_server) by (intros k t H; discriminate H).
  split; [exact Hwf |].
  apply (proj1 (proj2 (C5_session_creation env_ok fresh_server
                         (mkRequest None initialize_body) Hwf))).
  repeat split. discriminate.
Defined.

(** C6 (as the code behaves): a session header that names a member of
    [Object.prototype] names no registered session, yet passes the
    session check of both verbs: the GET handler then rejects with a
    [TypeError] without answering, and the POST handler answers [500]. *)
Theorem C6_prototype_member_passes_session_check
    (env : Environment) (parsedBody : value) :
  let req := mkRequest (Some "constructor") parsedBody in
  names_no_session fresh_server req /\
  run env (GET req) fresh_server =
    ( ( [ ConsoleLog [Text "get request received"];
          ConsoleLog [Text "Establishing SSE stream for session ";
                      Shown (Some (JStr "constructor"))] ],
        inr (ThrownError (TypeError_not_a_function "transport.handleRequest")) ),
      fresh_server ) /\
  responses (effects_of env (GET req) fresh_server) = [] /\
  responses (effects_of env (POST req) fresh_server) =
    [(500%Z, createErrorResponse env "Internal server error.")].
Proof. repeat split. Qed.

(** The error body has an [error] member and no [result] member. *)
Lemma createErrorResponse_shape (env : Environment) (message : string) :
  get_member (Some (createErrorResponse env message)) "jsonrpc" = Some (JStr "2.0") /\
  get_member (Some (createErrorResponse env message)) "error" =
    Some (JObj [("code", JNum (inject_Z (-32000))); ("message", JStr message)]) /\
  get_member (Some (createErrorResponse env message)) "id" = Some (JStr (randomUUID env)) /\
  get_member (Some (createErrorResponse env message)) "result" = undefined.
Proof. repeat split. Qed.

(* ===================================================================== *)
(** ** Timers *)
(* ===================================================================== *)

Section Lists.

Context {A : Type}.

Lemma nth_error_last (l : list A) (x : A) :
  nth_error (l ++ [x]) (length l) = Some x.
Proof. induction l as [| y l IH]; simpl; auto. Qed.

Lemma update_nth_last (f : A -> A) (l : list A) (x : A) :
  update_nth (length l) f (l ++ [x]) = l ++ [f x].
Proof. induction l as [| y l IH]; simpl; [reflexivity | now rewrite IH]. Qed.

Lemma nth_error_update_nth_other (f : A -> A) (l : list A) (i j : nat) :
  i <> j -> nth_error (update_nth j f l) i = nth_error l i.
Proof.
  revert i j. induction l as [| y l IH]; intros i j Hne; simpl.
  - reflexivity.
  - destruct j as [| j]; destruct i as [| i]; simpl; try reflexivity.
    + contradiction.
    + apply IH. congruence.
Qed.

Lemma nth_error_app_left (l l' : list A) (i : nat) (x : A) :
  nth_error l i = Some x -> nth_error (l ++ l') i = Some x.
Proof.
  intros H. rewrite nth_error_app1; [exact H |].
  apply nth_error_Some. congruence.
Qed.

Lemma update_nth_id (l : list A) (j : nat) :
  update_nth j (fun x => x) l = l.
Proof.
  revert j. induction l as [| y l IH]; intros [| j]; simpl; try reflexivity.
  now rewrite IH.
Qed.

Lemma update_nth_twice (f g : A -> A) (l : list A) (j : nat) :
  update_nth j g (update_nth j f l) = update_nth j (fun x => g (f x)) l.
Proof.
  revert j. induction l as [| y l IH]; intros [| j]; simpl; try reflexivity.
  now rewrite IH.
Qed.

End Lists.

Lemma sends_app (l l' : list event) : sends (l ++ l') = sends l ++ sends l'.
Proof. unfold sends. apply flat_map_app. Qed.

Lemma sends_send_log (env : Environment) (t : transport) (n : list (string * JSON)) :
  sends (send_log env t n) = [(t, rpc n)].
Proof. unfold send_log. destruct (send_throws env t (rpc n)); reflexivity. Qed.

Lemma detached_send (env : Environment) (t : transport) (n : list (string * JSON)) :
  detached (sendNotification env t n) = (send_log env t n, inl tt).
Proof.
  unfold detached, sendNotification, send_log, rpc, await_outcome, bind, emit, ret, throw.
  destruct (send_throws env t _); reflexivity.
Qed.

(** [streamMessages] sends the first notification and creates the
    interval. *)
Lemma streamMessages_run (env : Environment) (t : transport) (s : MCPServer) :
  streamMessages env t s =
    ( (send_log env t (LoggingMessageNotification "SSE Connection established"), inl tt),
      with_streams (fun l => l ++ [mkStream t 0 false]) s ).
Proof.
  unfold streamMessages, ptry, pbind, lift, setInterval_stream, modify.
  rewrite detached_send. unfold ret. simpl. now rewrite app_nil_r.
Qed.

(** One firing of a live stream interval. *)
Lemma stream_fire_live (env : Environment) (i : nat) (st : StreamTimer) (s : MCPServer) :
  nth_error (streams s) i = Some st ->
  cleared st = false ->
  let count := S (messageCount st) in
  let data := tick_message env count in
  run env (StreamTimerAt i) s =
    if Nat.eqb count 2 then
      ( ( send_log env (target st) (LoggingMessageNotification data) ++
          ConsoleLog [Text ("Sent: " ++ data)] ::
          send_log env (target st) (LoggingMessageNotification "Streaming complete!") ++
          [ConsoleLog [Text "Stream completed"]],
          inl tt ),
        with_streams
          (update_nth i (fun st => mkStream (target st) (messageCount st) true))
          (with_streams
             (update_nth i (fun st => mkStream (target st) (S (messageCount st)) (cleared st)))
             s) )
    else
      ( ( send_log env (target st) (LoggingMessageNotification data) ++
          [ConsoleLog [Text ("Sent: " ++ data)]],
          inl tt ),
        with_streams
          (update_nth i (fun st => mkStream (target st) (S (messageCount st)) (cleared st)))
          s ).
Proof.
  intros Hnth Hlive count data.
  unfold run, stream_fire, pbind, get, ret. rewrite Hnth, Hlive.
  unfold stream_callback, ptry, pbind, increment, clearInterval, modify, lift, log, pret.
  fold count. fold (tick_message env count). fold data.
  rewrite !detached_send. unfold ret, emit.
  destruct (Nat.eqb count 2); simpl; rewrite ?app_nil_r; reflexivity.
Qed.

(** A cleared stream interval does nothing. *)
Lemma stream_fire_cleared (env : Environment) (i : nat) (st : StreamTimer) (s : MCPServer) :
  nth_error (streams s) i = Some st ->
  cleared st = true ->
  run env (StreamTimerAt i) s = (([], inl tt), s).
Proof.
  intros Hnth Hc. unfold run, stream_fire, pbind, get, ret, pret. rewrite Hnth, Hc.
  reflexivity.
Qed.

Lemma run_all_step (env : Environment) (c : call)
    (rest : list (Environment * call)) (s : MCPServer) :
  snd (run_all ((env, c) :: rest) s) = snd (run_all rest (state_after env c s)).
Proof. cbn [run_all]. destruct (run_all rest (state_after env c s)). reflexivity. Qed.

Lemma nth_error_update_nth_same {A : Type} (f : A -> A) (l : list A) (i : nat) (x : A) :
  nth_error l i = Some x -> nth_error (update_nth i f l) i = Some (f x).
Proof.
  revert i. induction l as [| y l IH]; intros [| i] H; simpl in *; try discriminate.
  - now injection H as ->.
  - now apply IH.
Qed.

Lemma remaining_stopped (t : transport) (count : nat) (firings : list Environment) :
  remaining t count true firings = ([], (count, true)).
Proof. induction firings as [| env rest IH]; [reflexivity | exact IH]. Qed.


Lemma In_insert_by_index (x y : N * transport) (l : list (N * transport)) :
  In y (insert_by_index x l) <-> y = x \/ In y l.
Proof.
  induction l as [| z l IH]; simpl.
  - intuition.
  - destruct (fst x <=? fst z)%N; simpl; [intuition |].
    rewrite IH. intuition.
Qed.

(** [Object.values] lists every registered transport. *)
Lemma In_Object_values (own : list (string * transport)) (k : string) (t : transport) :
  In (k, t) own -> In t (Object_values own).
Proof.
  unfold Object_values. induction own as [| [k' t'] own IH]; simpl; [tauto |].
  intros [[= -> ->] | Hin].
  - destruct (array_index k) as [n |].
    + apply in_or_app. left. apply in_map_iff. exists (n, t). split; [reflexivity |].
      apply In_insert_by_index. now left.
    + apply in_or_app. right. now left.
  - specialize (IH Hin). apply in_app_or in IH. apply in_or_app.
    destruct (array_index k') as [n |].
    + destruct IH as [IH | IH]; [left | now right].
      apply in_map_iff in IH. destruct IH as (y & Hy & Hin').
      apply in_map_iff. exists y. split; [exact Hy |].
      apply In_insert_by_index. now right.
    + destruct IH as [IH | IH]; [now left | right; now right].
Qed.

Lemma forEach_broadcast (env : Environment) (targets : list transport) :
  forEach targets
    (fun transport =>
       detached (sendNotification env transport ToolListChangedNotification))
  = (broadcast_log env targets, inl tt).
Proof.
  induction targets as [| t targets IH]; simpl; [reflexivity |].
  rewrite detached_send, IH. reflexivity.
Qed.

Lemma sends_broadcast_log (env : Environment) (targets : list transport) :
  sends (broadcast_log env targets) =
  map (fun t => (t, rpc ToolListChangedNotification)) targets.
Proof.
  induction targets as [| t targets IH]; [reflexivity |].
  unfold broadcast_log in *. cbn [flat_map].
  rewrite sends_app, sends_send_log, IH. reflexivity.
Qed.

Lemma console_output_broadcast_log (env : Environment) (targets : list transport) :
  console_output (broadcast_log env targets) = [].
Proof.
  induction targets as [| t targets IH]; [reflexivity |].
  unfold console_output, broadcast_log in *. cbn [flat_map]. rewrite filter_app, IH.
  unfold send_log. destruct (send_throws env t _); reflexivity.
Qed.

Lemma unhandled_broadcast_log (env : Environment) (targets : list transport)
    (t : transport) (e : thrown) :
  In t targets ->
  send_throws env t (rpc ToolListChangedNotification) = Some e ->
  In e (unhandled_rejections (broadcast_log env targets)).
Proof.
  intros Hin Hfail. unfold unhandled_rejections, broadcast_log.
  apply in_flat_map. exists (UnhandledRejection e). split; [| now left].
  apply in_flat_map. exists t. split; [exact Hin |].
  unfold send_log. rewrite Hfail. right. now left.
Qed.

(** One firing of the tool-change interval while it is live. *)
Lemma tool_fire_live (env : Environment) (s : MCPServer) :
  toolInterval s = Some (mkTimeout false) ->
  run env ToolTimer s =
    ( ( SetListToolsHandler [weatherTool] ::
        broadcast_log env (Object_values (transports s)),
        inl tt ),
      s ).
Proof.
  intros Hlive. unfold run, tool_fire, pbind, get, ret. rewrite Hlive. simpl closed.
  cbv iota. unfold tool_callback, pbind, lift, get, setToolSchema, emit, ret.
  cbv beta iota zeta delta [closed]. rewrite forEach_broadcast. reflexivity.
Qed.

(** A closed tool-change interval does nothing. *)
Lemma tool_fire_closed (env : Environment) (s : MCPServer) :
  toolInterval s = Some (mkTimeout true) \/ toolInterval s = None ->
  run env ToolTimer s = (([], inl tt), s).
Proof.
  intros [H | H]; unfold run, tool_fire, pbind, get, ret, pret; rewrite H; reflexivity.
Qed.

(** C8 (as the code behaves): when the tool-change interval fires, the
    callback calls [send], with the tool-list-changed message, on every
    registered transport, whatever the outcome of the sends before it,
    completes without throwing and leaves the server state as it was.
    But [sendNotification] is called without [await] and without [catch]:
    the callback writes nothing to the console, and every failed send is
    left as an unhandled rejection. *)
Theorem C8_broadcast_reaches_every_session (env : Environment) (s : MCPServer) :
  toolInterval s = Some (mkTimeout false) ->
  let log := effects_of env ToolTimer s in
  let message :=
    JObj [ ("method", JStr "notifications/tools/list_changed");
           ("jsonrpc", JStr "2.0") ] in
  sends log = map (fun t => (t, message)) (Object_values (transports s)) /\
  (forall k t, lookup k (transports s) = Some t -> In (t, message) (sends log)) /\
  outcome_of env ToolTimer s = inl tt /\
  state_after env ToolTimer s = s /\
  console_output log = [] /\
  (forall k t e,
      lookup k (transports s) = Some t ->
      send_throws env t message = Some e ->
      In e (unhandled_rejections log)).
Proof.
  intros Hlive log message.
  change message with (rpc ToolListChangedNotification).
  assert (Hlog : log = SetListToolsHandler [weatherTool] ::
                       broadcast_log env (Object_values (transports s))).
  { unfold log, effects_of. now rewrite (tool_fire_live env s Hlive). }
  assert (Hsends : sends log =
            map (fun t => (t, rpc ToolListChangedNotification))
              (Object_values (transports s))).
  { rewrite Hlog. change (sends (?x :: ?l)) with (sends l).
    apply sends_broadcast_log. }
  split; [exact Hsends |]. split; [| split; [| split; [| split]]].
  - intros k t Hk. rewrite Hsends.
    apply (in_map (fun t => (t, rpc ToolListChangedNotification))).
    apply (In_Object_values _ k). now apply lookup_In.
  - unfold outcome_of. now rewrite (tool_fire_live env s Hlive).
  - unfold state_after. now rewrite (tool_fire_live env s Hlive).
  - rewrite Hlog. change (console_output (?x :: ?l)) with (console_output l).
    apply console_output_broadcast_log.
  - intros k t e Hk Hfail. rewrite Hlog.
    change (unhandled_rejections (?x :: ?l)) with (unhandled_rejections l).
    apply (unhandled_broadcast_log env _ t); [| exact Hfail].
    apply (In_Object_values _ k). now apply lookup_In.
Qed.

(** C8 at two sessions, the first of which fails its send: the second
    is still sent to, but nothing is logged and the failure is an
    unhandled rejection. *)
Lemma C8_failure_not_logged :
  sends (effects_of env_send_fails ToolTimer two_sessions) =
    [(0, rpc ToolListChangedNotification); (1, rpc ToolListChangedNotification)] /\
  console_output (effects_of env_send_fails ToolTimer two_sessions) = [] /\
  unhandled_rejections (effects_of env_send_fails ToolTimer two_sessions) =
    [stream_closed].
Proof. repeat split. Qed.

Lemma C8_witness :
  toolInterval two_sessions = Some (mkTimeout false) /\
  sends (effects_of env_send_fails ToolTimer two_sessions) =
    map (fun t => (t, JObj [ ("method", JStr "notifications/tools/list_changed");
                             ("jsonrpc", JStr "2.0") ]))
      (Object_values (transports two_sessions)) /\
  console_output (effects_of env_send_fails ToolTimer two_sessions) = [] /\
  In stream_closed (unhandled_rejections (effects_of env_send_fails ToolTimer two_sessions)).
Proof.
  split; [reflexivity |].
  pose proof (C8_broadcast_reaches_every_session env_send_fails two_sessions eq_refl)
    as (Hsends & _ & _ & _ & Hconsole & Hrejected).
  split; [exact Hsends |]. split; [exact Hconsole |].
  exact (Hrejected "3f2b8c1e-0d4a-4c77-9a51-6e2f0b7d9c10" 0 stream_closed eq_refl eq_refl).
Defined.

(* ===================================================================== *)
(** ** What the calls do to the session map and to the intervals *)
(* ===================================================================== *)

Lemma cleanup_state (env : Environment) (s : MCPServer) :
  state_after env Cleanup s =
  with_toolInterval (option_map (fun _ => mkTimeout true) (toolInterval s)) s.
Proof. unfold_server. destruct (close_throws env); reflexivity. Qed.

Lemma GET_state (env : Environment) (s : MCPServer) (req : HttpRequest) :
  state_after env (GET req) s = s \/
  exists t, state_after env (GET req) s =
            with_streams (fun l => l ++ [mkStream t 0 false]) s.
Proof.
  unfold state_after, run, handleGetRequest, pbind, log, lift, get, ret, emit.
  cbv beta iota zeta.
  destruct (negb (truthy_id (session_header req))
            || negb (slot_truthy (read s (session_header req)))); [now left |].
  destruct (read s (session_header req)) as [t | m |]; cbn [transport_handleRequest].
  - unfold bind, emit, await_outcome.
    destruct (handleRequest_throws env t undefined); [now left |].
    cbv beta iota zeta delta [ret]. rewrite streamMessages_run. right. now exists t.
  - now left.
  - now left.
Qed.

Lemma POST_state (env : Environment) (s : MCPServer) (req : HttpRequest) :
  state_after env (POST req) s = s \/
  state_after env (POST req) s = with_created (S (created s)) s \/
  exists k, state_after env (POST req) s =
            with_transports (assign k (created s)) (with_created (S (created s)) s).
Proof.
  destruct (qualifies env req) eqn:Hq.
  - unfold state_after. rewrite (POST_new_transport env s req Hq). cbv zeta.
    destruct (connect_throws env (created s)); [right; now left |].
    destruct (handleRequest_throws env (created s) (body req)); [right; now left |].
    cbn [snd].
    destruct (sessionId_after env (created s) (body req)) as [k |]; [| right; now left].
    destruct (truthy_id (Some k)); [| right; now left].
    right. right. now exists k.
  - left. apply (POST_not_qualifying env s req Hq).
Qed.

Lemma ToolTimer_state (env : Environment) (s : MCPServer) :
  state_after env ToolTimer s = s.
Proof.
  unfold state_after.
  destruct (toolInterval s) as [[[|]] |] eqn:H.
  - now rewrite tool_fire_closed by (now left).
  - now rewrite tool_fire_live.
  - now rewrite tool_fire_closed by (now right).
Qed.

Lemma with_streams_id (s : MCPServer) (j : nat) :
  s = with_streams (update_nth j (fun st => st)) s.
Proof.
  destruct s as [tr ti str cr]. unfold with_streams. simpl. f_equal.
  symmetry. apply update_nth_id.
Qed.

Lemma StreamTimer_state (env : Environment) (s : MCPServer) (j : nat) :
  exists f, state_after env (StreamTimerAt j) s = with_streams (update_nth j f) s.
Proof.
  unfold state_after.
  destruct (nth_error (streams s) j) as [st |] eqn:Hnth.
  - destruct (cleared st) eqn:Hc.
    + rewrite (stream_fire_cleared env j st s Hnth Hc). exists (fun st => st).
      apply with_streams_id.
    + rewrite (stream_fire_live env j st s Hnth Hc). cbv zeta.
      destruct (Nat.eqb (S (messageCount st)) 2); cbn [snd].
      * eexists. unfold with_streams. simpl. rewrite update_nth_twice. reflexivity.
      * eexists. reflexivity.
  - unfold run, stream_fire, pbind, get, ret, pret. rewrite Hnth.
    exists (fun st => st). apply with_streams_id.
Qed.

(** No call removes an entry of the session map. *)
Lemma registered_preserved (env : Environment) (c : call) (s : MCPServer) (k : string) :
  registered s k -> registered (state_after env c s) k.
Proof.
  unfold registered. intros Hk. destruct c as [req | req | | j |].
  - destruct (GET_state env s req) as [-> | (t & ->)]; exact Hk.
  - destruct (POST_state env s req) as [-> | [-> | (k' & ->)]]; try exact Hk.
    simpl. now apply lookup_assign_defined.
  - now rewrite ToolTimer_state.
  - destruct (StreamTimer_state env s j) as (f & ->). exact Hk.
  - now rewrite cleanup_state.
Qed.

(** A stream interval is changed by its own firings only. *)
Lemma stream_preserved (env : Environment) (c : call) (s : MCPServer)
    (i : nat) (st : StreamTimer) :
  nth_error (streams s) i = Some st ->
  c <> StreamTimerAt i ->
  nth_error (streams (state_after env c s)) i = Some st.
Proof.
  intros Hnth Hc. destruct c as [req | req | | j |].
  - destruct (GET_state env s req) as [-> | (t & ->)]; [exact Hnth |].
    simpl. now apply nth_error_app_left.
  - destruct (POST_state env s req) as [-> | [-> | (k' & ->)]]; exact Hnth.
  - now rewrite ToolTimer_state.
  - destruct (StreamTimer_state env s j) as (f & ->). simpl.
    rewrite nth_error_update_nth_other; [exact Hnth | congruence].
  - now rewrite cleanup_state.
Qed.

(** Reachable states are well formed. *)
Lemma well_formed_preserved (env : Environment) (c : call) (s : MCPServer) :
  well_formed s -> well_formed (state_after env c s).
Proof.
  unfold well_formed. intros Hwf k t. destruct c as [req | req | | j |].
  - destruct (GET_state env s req) as [-> | (t' & ->)]; apply Hwf.
  - destruct (POST_state env s req) as [-> | [-> | (k' & ->)]]; simpl.
    + apply Hwf.
    + intros H. apply Hwf in H. lia.
    + destruct (String.eqb k k') eqn:E.
      * apply String.eqb_eq in E. subst k'. rewrite lookup_assign_same.
        intros [= <-]. lia.
      * apply String.eqb_neq in E. rewrite lookup_assign_other by exact E.
        intros H. apply Hwf in H. lia.
  - rewrite ToolTimer_state. apply Hwf.
  - destruct (StreamTimer_state env s j) as (f & ->). apply Hwf.
  - rewrite cleanup_state. apply Hwf.
Qed.

Lemma well_formed_fresh_server : well_formed fresh_server.
Proof. intros k t H. discriminate H. Qed.

(** C9 (amended): the server has no operation that closes one session:
    no call removes an entry of the session map, and a stream interval is
    changed by its own firings only.  [cleanup] closes the tool-change
    interval, so that it no longer fires, and closes the SDK server; it
    leaves the session map and the stream intervals as they were, and a
    second [cleanup] changes nothing. *)
Theorem C9_cleanup_and_session_lifetime (env env' : Environment) (s : MCPServer) :
  (forall c k, registered s k -> registered (state_after env c s) k) /\
  (forall c i st,
      nth_error (streams s) i = Some st ->
      c <> StreamTimerAt i ->
      nth_error (streams (state_after env c s)) i = Some st) /\
  let s' := state_after env Cleanup s in
  transports s' = transports s /\
  streams s' = streams s /\
  toolInterval s' = option_map (fun _ => mkTimeout true) (toolInterval s) /\
  In ServerClose (effects_of env Cleanup s) /\
  run env' ToolTimer s' = (([], inl tt), s') /\
  state_after env' Cleanup s' = s'.
Proof.
  split; [intros c k; apply registered_preserved |].
  split; [intros c i st; apply stream_preserved |].
  intros s'. unfold s'. rewrite !cleanup_state.
  split; [reflexivity |]. split; [reflexivity |]. split; [reflexivity |].
  split; [| split].
  - unfold_server. destruct (close_throws env); simpl; auto.
  - apply tool_fire_closed. simpl. destruct (toolInterval s); [now left | now right].
  - destruct s as [tr [ti |] str cr]; reflexivity.
Qed.

(** C9, as stated, fails: after [cleanup], a registered session is still
    in the session map and its stream interval is still live and sends
    to the session's transport when it fires. *)
Lemma C9_counterexample_cleanup_keeps_sessions :
  let closed_down := state_after env_ok Cleanup two_sessions in
  transports_get closed_down "3f2b8c1e-0d4a-4c77-9a51-6e2f0b7d9c10" = Live 0 /\
  nth_error (streams closed_down) 0 = Some (mkStream 0 0 false) /\
  sends (effects_of env_ok (StreamTimerAt 0) closed_down) =
    [(0, rpc (LoggingMessageNotification "Message 1 at 2025-01-01T00:00:00.000Z"))].
Proof. repeat split. Qed.

Lemma C9_witness :
  registered two_sessions "3f2b8c1e-0d4a-4c77-9a51-6e2f0b7d9c10" /\
  registered (state_after env_ok Cleanup two_sessions)
    "3f2b8c1e-0d4a-4c77-9a51-6e2f0b7d9c10".
Proof.
  assert (H : registered two_sessions "3f2b8c1e-0d4a-4c77-9a51-6e2f0b7d9c10")
    by (unfold registered; simpl; discriminate).
  split; [exact H |].
  exact (proj1 (C9_cleanup_and_session_lifetime env_ok env_ok two_sessions)
           Cleanup "3f2b8c1e-0d4a-4c77-9a51-6e2f0b7d9c10" H).
Defined.

(* ===================================================================== *)
(** ** The stream interval within a schedule *)
(* ===================================================================== *)

(** The sends of the firings of one stream interval within any schedule,
    and the interval at the end of the schedule. *)
Lemma timer_sends_remaining (i : nat) (t : transport)
    (schedule : list (Environment * call)) :
  forall (s : MCPServer) (count : nat) (stopped : bool),
    nth_error (streams s) i = Some (mkStream t count stopped) ->
    timer_sends i schedule s =
      fst (remaining t count stopped (firings_of i schedule)) /\
    nth_error (streams (snd (run_all schedule s))) i =
      Some (mkStream t (fst (snd (remaining t count stopped (firings_of i schedule))))
                     (snd (snd (remaining t count stopped (firings_of i schedule))))).
Proof.
  induction schedule as [| [env c] rest IH]; intros s count stopped Hnth.
  - split; [reflexivity | exact Hnth].
  - rewrite run_all_step. cbn [timer_sends firings_of flat_map snd fst].
    fold (firings_of i rest).
    assert (Hother : c <> StreamTimerAt i ->
              nth_error (streams (state_after env c s)) i =
              Some (mkStream t count stopped))
      by (intros Hc; now apply stream_preserved).
    destruct c as [req | req | | j |];
      try (cbn [app]; apply IH; apply Hother; discriminate).
    destruct (Nat.eqb i j) eqn:Hij.
    2:{ cbn [app]. apply IH. apply Hother. apply Nat.eqb_neq in Hij. congruence. }
    apply Nat.eqb_eq in Hij. subst j. cbn [app remaining].
    destruct stopped.
    + unfold effects_of, state_after in *.
      rewrite (stream_fire_cleared env i _ s Hnth eq_refl). cbn [effects fst snd sends
        flat_map app].
      apply IH. exact Hnth.
    + pose proof (stream_fire_live env i _ s Hnth eq_refl) as Hrun.
      cbv zeta in Hrun. cbn [messageCount target cleared] in Hrun.
      assert (Hnext : nth_error (streams (state_after env (StreamTimerAt i) s)) i =
                      Some (mkStream t (S count) (Nat.eqb (S count) 2))).
      { unfold state_after. rewrite Hrun.
        destruct (Nat.eqb (S count) 2); cbn [snd streams with_streams].
        - rewrite update_nth_twice.
          now rewrite (nth_error_update_nth_same _ _ _ _ Hnth).
        - now rewrite (nth_error_update_nth_same _ _ _ _ Hnth). }
      assert (Hsent : sends (effects_of env (StreamTimerAt i) s) =
                      (t, rpc (LoggingMessageNotification (tick_message env (S count)))) ::
                      (if Nat.eqb (S count) 2
                       then [(t, rpc (LoggingMessageNotification "Streaming complete!"))]
                       else [])).
      { unfold effects_of. rewrite Hrun.
        destruct (Nat.eqb (S count) 2); cbn [effects fst];
          rewrite !sends_app, ?sends_send_log; cbn [app];
          change (sends (ConsoleLog ?p :: ?l)) with (sends l);
          rewrite ?sends_app, ?sends_send_log; reflexivity. }
      destruct (IH _ _ _ Hnext) as [IH1 IH2].
      rewrite Hsent, IH1, IH2.
      destruct (remaining t (S count) (Nat.eqb (S count) 2) (firings_of i rest))
        as [more final].
      split; reflexivity.
Qed.

(** C7: after [streamMessages] has sent the opening notification and
    started the interval of a session, the firings of that interval send,
    in every schedule and whatever other requests, timers and cleanups
    run in between, first [Message 1], then [Message 2] followed at once
    by [Streaming complete!], and nothing after: four notifications in
    all, in this order, each to the session's transport.  The interval
    counts its firings up to two, is cleared at the second, and every
    later firing does nothing. *)
Theorem C7_stream_timer_sequence
    (env0 : Environment) (t : transport) (s : MCPServer)
    (schedule : list (Environment * call)) :
  let i := length (streams s) in
  let started := streamMessages env0 t s in
  let final := snd (run_all schedule (snd started)) in
  let message := fun data : string =>
    (t, JObj [ ("method", JStr "notifications/message");
               ("params", JObj [("level", JStr "info"); ("data", JStr data)]);
               ("jsonrpc", JStr "2.0") ]) in
  sends (effects (fst started)) = [message "SSE Connection established"] /\
  timer_sends i schedule (snd started) =
    match firings_of i schedule with
    | [] => []
    | [e1] => [message ("Message 1 at " ++ now e1)%string]
    | e1 :: e2 :: _ =>
        [ message ("Message 1 at " ++ now e1)%string;
          message ("Message 2 at " ++ now e2)%string;
          message "Streaming complete!" ]
    end /\
  nth_error (streams final) i =
    Some (mkStream t (Nat.min (length (firings_of i schedule)) 2)
                     (Nat.leb 2 (length (firings_of i schedule)))) /\
  (2 <= length (firings_of i schedule) ->
   forall env, run env (StreamTimerAt i) final = (([], inl tt), final)).
Proof.
  intros i started final message.
  assert (Hstart : started =
            ((send_log env0 t (LoggingMessageNotification "SSE Connection established"),
              inl tt),
             with_streams (fun l => l ++ [mkStream t 0 false]) s))
    by apply streamMessages_run.
  assert (H0 : nth_error (streams (snd started)) i = Some (mkStream t 0 false)).
  { rewrite Hstart. apply nth_error_last. }
  destruct (timer_sends_remaining i t schedule (snd started) 0 false H0) as [Hs Hf].
  assert (Hfinal : nth_error (streams final) i =
            Some (mkStream t (Nat.min (length (firings_of i schedule)) 2)
                             (Nat.leb 2 (length (firings_of i schedule))))).
  { unfold final. rewrite Hf.
    destruct (firings_of i schedule) as [| e1 [| e2 later]]; try reflexivity.
    cbn [remaining Nat.eqb]. rewrite remaining_stopped.
    cbn [fst snd length Nat.min Nat.leb]. rewrite Nat.min_0_r. reflexivity. }
  split; [| split; [| split]].
  - rewrite Hstart. cbn [fst effects]. apply sends_send_log.
  - rewrite Hs. destruct (firings_of i schedule) as [| e1 [| e2 later]];
      try reflexivity.
    cbn [remaining Nat.eqb]. rewrite remaining_stopped. reflexivity.
  - exact Hfinal.
  - intros Hlen env.
    apply (stream_fire_cleared env i _ final Hfinal).
    cbn [cleared]. now apply Nat.leb_le.
Qed.

(* ===================================================================== *)
(** ** The handler as a whole *)
(* ===================================================================== *)

Section ToolCallTotal.

Variable net : upstream.

(** Every run of the handler, by cases on the checks, on the template
    literal and on the upstream. *)
Lemma callTool_total (request : CallToolRequest) :
  Stdio.callTool net request =
    if coordinates_ok request then
      if reaches_upstream request then
        let start :=
          fetching (argument request "latitude") (argument request "longitude") in
        match request_answer net request with
        | Resolves data =>
            if usable data then (start, inl undefined)
            else (start ++ [failure_logged (ThrownError no_current_data)],
                  inr (ThrownError (fetch_failure no_current_data)))
        | Rejects (ThrownError e) =>
            (start ++ [failure_logged (ThrownError e)],
             inr (ThrownError (fetch_failure e)))
        | Rejects (ThrownValue v) => (start, inr (ThrownValue v))
        end
      else
        ([failure_logged (ThrownError TypeError_to_primitive)],
         inr (ThrownError (fetch_failure TypeError_to_primitive)))
    else
      ([failure_logged (ThrownError (check_failure request))],
       inr (ThrownError (fetch_failure (check_failure request)))).
Proof.
  destruct request as [n args]. unfold reaches_upstream, coordinates_ok, check_failure,
    request_answer, request_query, argument. cbn [name arguments].
  destruct (String.eqb n "get-weather") eqn:Hn.
  - apply String.eqb_eq in Hn. subst n. cbn [andb negb].
    destruct args as [args |]; [| reflexivity].
    destruct (truthy (lookup "latitude" args)) eqn:Hlat.
    + destruct (truthy (lookup "longitude" args)) eqn:Hlon.
      * cbn [andb].
        destruct (printable (lookup "latitude" args)
                  && printable (lookup "longitude" args)) eqn:Hp.
        -- apply andb_true_iff in Hp. destruct Hp as [Plat Plon].
           rewrite (callTool_fetch net args Hlat Hlon Plat Plon). cbv zeta.
           unfold answer, usable.
           destruct (net Stdio.axiosInstance "/forecast" _) as [data | [e | v]];
             try reflexivity.
           destruct (truthy data); destruct (truthy (get_member data "current"));
             reflexivity.
        -- now rewrite (callTool_unprintable net args Hlat Hlon Hp).
      * cbn [andb negb]. now rewrite (callTool_longitude_falsy net args Hlat Hlon).
    + cbn [andb negb]. now rewrite (callTool_latitude_falsy net args Hlat).
  - assert (Hne : name (mkCall n args) <> "get-weather")
      by (now apply String.eqb_neq).
    cbn [andb negb]. now rewrite (callTool_unknown_name net (mkCall n args) Hne).
Qed.

Lemma reaches_upstream_ok (request : CallToolRequest) :
  reaches_upstream request = true -> coordinates_ok request = true.
Proof.
  unfold reaches_upstream. intros H. apply andb_true_iff in H. destruct H as [H _].
  now apply andb_true_iff in H.
Qed.

Lemma coordinates_ok_arguments (request : CallToolRequest) :
  coordinates_ok request = true ->
  name request = "get-weather" /\
  exists args, arguments request = Some args /\
               truthy (lookup "latitude" args) = true /\
               truthy (lookup "longitude" args) = true.
Proof.
  unfold coordinates_ok. intros H. apply andb_true_iff in H. destruct H as [Hn Ha].
  apply String.eqb_eq in Hn. split; [exact Hn |].
  destruct (arguments request) as [args |]; [| discriminate].
  apply andb_true_iff in Ha. now exists args.
Qed.

(** X1: a call succeeds exactly when it names [get-weather], carries
    coordinates that are truthy and convert to strings, and the upstream
    resolves with a truthy body that has a truthy [current] member. *)
Theorem X1_success_exactly_when (request : CallToolRequest) :
  both_handlers net request
    (fun run =>
       outcome run = inl undefined <->
       name request = "get-weather" /\
       truthy (argument request "latitude") = true /\
       truthy (argument request "longitude") = true /\
       printable (argument request "latitude") = true /\
       printable (argument request "longitude") = true /\
       exists data,
         net Stdio.axiosInstance "/forecast"
           [ ("latitude", argument request "latitude");
             ("longitude", argument request "longitude");
             ("current", Some (JStr "temperature_2m,wind_speed_10m"));
             ("hourly",
              Some (JStr "temperature_2m,relative_humidity_2m,wind_speed_10m")) ]
         = Resolves data /\
         truthy data = true /\
         truthy (get_member data "current") = true).
Proof.
  apply both_handlers_intro. rewrite callTool_total.
  assert (Hconds : reaches_upstream request = true <->
                   name request = "get-weather" /\
                   truthy (argument request "latitude") = true /\
                   truthy (argument request "longitude") = true /\
                   printable (argument request "latitude") = true /\
                   printable (argument request "longitude") = true).
  { unfold reaches_upstream, coordinates_ok, argument.
    rewrite !andb_true_iff, String.eqb_eq.
    destruct (arguments request) as [args |].
    - rewrite andb_true_iff. tauto.
    - split; [intros [[[_ H] _] _]; discriminate | intros (_ & H & _); discriminate]. }
  assert (Hq : request_answer net request =
               net Stdio.axiosInstance "/forecast"
                 [ ("latitude", argument request "latitude");
                   ("longitude", argument request "longitude");
                   ("current", Some (JStr "temperature_2m,wind_speed_10m"));
                   ("hourly",
                    Some (JStr "temperature_2m,relative_humidity_2m,wind_speed_10m")) ]).
  { unfold request_answer, request_query, argument.
    destruct (arguments request); reflexivity. }
  rewrite <- Hq.
  destruct (reaches_upstream request) eqn:Hr.
  - rewrite (reaches_upstream_ok request Hr). cbv zeta.
    destruct (request_answer net request) as [data | [e | v]].
    + unfold usable. destruct (truthy data) eqn:Hd;
        destruct (truthy (get_member data "current")) eqn:Hc; cbn [andb outcome snd];
        split; try discriminate; try reflexivity.
      * intros _. destruct (proj1 Hconds eq_refl) as (H1 & H2 & H3 & H4 & H5).
        repeat (split; [assumption |]). exists data. now repeat split.
      * intros (_ & _ & _ & _ & _ & d & [= <-] & _ & H). congruence.
      * intros (_ & _ & _ & _ & _ & d & [= <-] & H & _). congruence.
      * intros (_ & _ & _ & _ & _ & d & [= <-] & H & _). congruence.
    + cbn [outcome snd]. split; [discriminate |].
      intros (_ & _ & _ & _ & _ & d & Hd & _). discriminate.
    + cbn [outcome snd]. split; [discriminate |].
      intros (_ & _ & _ & _ & _ & d & Hd & _). discriminate.
  - assert (Hno : ~ (name request = "get-weather" /\
                     truthy (argument request "latitude") = true /\
                     truthy (argument request "longitude") = true /\
                     printable (argument request "latitude") = true /\
                     printable (argument request "longitude") = true)).
    { intros H. apply Hconds in H. discriminate. }
    destruct (coordinates_ok request); cbn [outcome snd];
      (split; [discriminate |]);
      intros (H1 & H2 & H3 & H4 & H5 & _); exfalso; apply Hno; now repeat split.
Qed.

Lemma network_calls_total (request : CallToolRequest) :
  network_calls (Stdio.callTool net request) =
    if reaches_upstream request
    then [AxiosGet Stdio.axiosInstance "/forecast" (request_query request)]
    else [].
Proof.
  rewrite callTool_total. unfold network_calls.
  destruct (reaches_upstream request) eqn:Hr.
  - rewrite (reaches_upstream_ok request Hr).
    destruct (coordinates_ok_arguments request (reaches_upstream_ok request Hr))
      as (_ & args & Ha & _).
    unfold request_answer, request_query, argument. rewrite Ha. cbv zeta.
    destruct (net Stdio.axiosInstance "/forecast" _) as [data | [e | v]];
      try destruct (usable data); reflexivity.
  - destruct (coordinates_ok request); reflexivity.
Qed.

(** X2: the handler issues the GET to [/forecast] of the weather
    endpoint, with the request's two coordinates and the two fixed field
    lists, exactly when the request passes the name check, both parameter
    checks and the template literal of the log line; it never issues a
    second call, whatever the upstream answers.  A request that passes the
    checks with a coordinate that does not convert to a string (an object
    with an own [toString] member) is rejected with the wrapped
    [TypeError] before any call. *)
Theorem X2_one_network_call_at_most (request : CallToolRequest) :
  both_handlers net request
    (fun run =>
       network_calls run =
         if reaches_upstream request
         then [ AxiosGet
                  (mkAxios 5000%Z "https://api.open-meteo.com/v1"
                     [("Accept", "application/json");
                      ("Content-Type", "application/json")])
                  "/forecast"
                  [ ("latitude", argument request "latitude");
                    ("longitude", argument request "longitude");
                    ("current", Some (JStr "temperature_2m,wind_speed_10m"));
                    ("hourly",
                     Some (JStr
                             "temperature_2m,relative_humidity_2m,wind_speed_10m")) ] ]
         else []) /\
  (reaches_upstream request = true <->
   name request = "get-weather" /\
   truthy (argument request "latitude") = true /\
   truthy (argument request "longitude") = true /\
   printable (argument request "latitude") = true /\
   printable (argument request "longitude") = true) /\
  (coordinates_ok request = true ->
   reaches_upstream request = false ->
   both_handlers net request
     (fun run =>
        outcome run =
          inr (ThrownError
                 (mkError "McpError"
                    "MCP error -32603: Failed to fetch data: Cannot convert object to primitive value"
                    (Some (-32603)%Z) undefined)))) /\
  (forall fields value,
      lookup "toString" fields = Some value ->
      printable (Some (JObj fields)) = false).
Proof.
  split; [| split; [| split]].
  - apply both_handlers_intro. rewrite network_calls_total.
    unfold request_query, argument. destruct (arguments request); reflexivity.
  - unfold reaches_upstream, coordinates_ok, argument.
    rewrite !andb_true_iff, String.eqb_eq.
    destruct (arguments request) as [args |].
    + rewrite andb_true_iff. tauto.
    + split; [intros [[[_ H] _] _]; discriminate | intros (_ & H & _); discriminate].
  - intros Hok Hr. apply both_handlers_intro. now rewrite callTool_total, Hok, Hr.
  - intros fields value H. cbn. now rewrite H.
Qed.

(** X3: whatever the request and the upstream, a handler either returns
    [undefined], or rejects with an [McpError] of code [InternalError]
    without [data] whose message is the fixed prefix and a cause, or
    rethrows unchanged the non-[Error] value with which the GET
    rejected.  No other error class reaches the caller. *)
Theorem X3_outcomes_of_a_call (request : CallToolRequest) :
  both_handlers net request
    (fun run =>
       match outcome run with
       | inl v => v = undefined
       | inr (ThrownError e) =>
           has_code InternalError e /\
           err_name e = "McpError" /\
           err_data e = undefined /\
           exists cause,
             err_message e = ("MCP error -32603: Failed to fetch data: " ++ cause)%string
       | inr (ThrownValue v) =>
           coordinates_ok request = true /\
           request_answer net request = Rejects (ThrownValue v)
       end).
Proof.
  apply both_handlers_intro. rewrite callTool_total.
  assert (Hw : forall e,
             has_code InternalError (fetch_failure e) /\
             err_name (fetch_failure e) = "McpError" /\
             err_data (fetch_failure e) = undefined /\
             exists cause,
               err_message (fetch_failure e) =
               ("MCP error -32603: Failed to fetch data: " ++ cause)%string).
  { intros e. repeat split. now exists (err_message e). }
  destruct (coordinates_ok request).
  - destruct (reaches_upstream request); [| cbn [outcome snd]; apply Hw].
    cbv zeta. destruct (request_answer net request) as [data | [e | v]].
    + destruct (usable data); cbn [outcome snd]; [reflexivity | apply Hw].
    + cbn [outcome snd]. apply Hw.
    + cbn [outcome snd]. now split.
  - cbn [outcome snd]. apply Hw.
Qed.

(** X4: the test on the response is one of truthiness, not of presence:
    once the request has reached the upstream, a resolved response whose
    body is falsy, or whose [current] member is [null], [false], [0] or
    the empty string, is rejected like one without [current], after the
    one GET. *)
Theorem X4_falsy_current_is_no_data (request : CallToolRequest) (data : value) :
  reaches_upstream request = true ->
  request_answer net request = Resolves data ->
  truthy data && truthy (get_member data "current") = false ->
  both_handlers net request
    (fun run =>
       outcome run =
         inr (ThrownError
                (mkError "McpError"
                   "MCP error -32603: Failed to fetch data: No current weather data returned from Weather API"
                   (Some (-32603)%Z) undefined)) /\
       network_calls run =
         [AxiosGet Stdio.axiosInstance "/forecast" (request_query request)]).
Proof.
  intros Hr Hans Hu. apply both_handlers_intro. split.
  - rewrite callTool_total, Hr, (reaches_upstream_ok request Hr). cbv zeta.
    rewrite Hans. unfold usable. now rewrite Hu.
  - now rewrite network_calls_total, Hr.
Qed.

(** X5: a [get-weather] call without an [arguments] object fails on the
    read of [args.latitude]: the [TypeError] is wrapped like a fetch
    failure, and no network call is issued. *)
Theorem X5_absent_arguments (request : CallToolRequest) :
  name request = "get-weather" ->
  arguments request = None ->
  both_handlers net request
    (fun run =>
       rejects_with (fetch_failure (TypeError_undefined_property "latitude")) run /\
       err_message (fetch_failure (TypeError_undefined_property "latitude")) =
         "MCP error -32603: Failed to fetch data: Cannot read properties of undefined (reading 'latitude')" /\
       no_network_call run).
Proof.
  intros Hn Ha. apply both_handlers_intro.
  unfold rejects_with, no_network_call, network_calls. rewrite callTool_total.
  unfold coordinates_ok, check_failure. rewrite Hn, Ha. repeat split.
Qed.

End ToolCallTotal.

Lemma X4_witness :
  let request := mkCall "get-weather" (Some berlin) in
  let null_current : upstream :=
    fun _ _ _ => Resolves (Some (JObj [("current", JNull)])) in
  reaches_upstream request = true /\
  truthy (Some (JObj [("current", JNull)]))
  && truthy (get_member (Some (JObj [("current", JNull)])) "current") = false /\
  both_handlers null_current request
    (fun run =>
       outcome run =
         inr (ThrownError
                (mkError "McpError"
                   "MCP error -32603: Failed to fetch data: No current weather data returned from Weather API"
                   (Some (-32603)%Z) undefined)) /\
       network_calls run =
         [AxiosGet Stdio.axiosInstance "/forecast" (request_query request)]).
Proof.
  split; [reflexivity |]. split; [reflexivity |].
  exact (X4_falsy_current_is_no_data
           (fun _ _ _ => Resolves (Some (JObj [("current", JNull)])))
           (mkCall "get-weather" (Some berlin))
           (Some (JObj [("current", JNull)])) eq_refl eq_refl eq_refl).
Defined.

Lemma X5_witness :
  name (mkCall "get-weather" None) = "get-weather" /\
  arguments (mkCall "get-weather" None) = None /\
  both_handlers net_current (mkCall "get-weather" None)
    (fun run =>
       rejects_with (fetch_failure (TypeError_undefined_property "latitude")) run /\
       err_message (fetch_failure (TypeError_undefined_property "latitude")) =
         "MCP error -32603: Failed to fetch data: Cannot read properties of undefined (reading 'latitude')" /\
       no_network_call run).
Proof.
  split; [reflexivity |]. split; [reflexivity |].
  exact (X5_absent_arguments net_current (mkCall "get-weather" None) eq_refl eq_refl).
Defined.

(** X6: the two servers list the same single tool; a handler rejects a
    call as naming an unknown tool, without network call, exactly when the
    name is not that of a listed tool; and its parameter checks pass
    exactly when every parameter that the listed schema requires is
    truthy in the arguments. *)
Theorem X6_handler_agrees_with_listed_tool :
  Registry.stdio_listTools = Registry.http_listTools /\
  (forall net request,
      both_handlers net request
        (fun run =>
           rejects_with
             (fetch_failure (McpError MethodNotFound ("Unknown tool: " ++ name request)))
             run /\ no_network_call run
           <-> ~ In (name request) (Registry.tool_names Registry.http_listTools))) /\
  (forall args,
      first_missing args = None <->
      forall p,
        In p (Registry.required_parameters Registry.http_listTools "get-weather") ->
        truthy (lookup p args) = true).
Proof.
  split; [reflexivity |]. split.
  - intros net request. apply both_handlers_intro.
    change (Registry.tool_names Registry.http_listTools) with ["get-weather"].
    split.
    + intros [Hrej Hnet] [Hin | []].
      unfold rejects_with, no_network_call in *.
      pose proof (network_calls_total net request) as Hcalls.
      rewrite Hnet in Hcalls. rewrite callTool_total in Hrej.
      destruct (reaches_upstream request) eqn:Hr; [discriminate |].
      destruct (coordinates_ok request) eqn:Hok.
      { cbn [outcome snd] in Hrej. rewrite <- Hin in Hrej. discriminate. }
      cbn [outcome snd] in Hrej.
      unfold check_failure in Hrej. rewrite <- Hin in Hrej.
      rewrite String.eqb_refl in Hrej. cbn [negb] in Hrej.
      destruct (arguments request) as [args |]; [| discriminate].
      destruct (truthy (lookup "latitude" args)); discriminate.
    + intros Hnot.
      assert (Hne : name request <> "get-weather").
      { intros E. apply Hnot. left. now symmetry. }
      unfold rejects_with, no_network_call, network_calls.
      rewrite (callTool_unknown_name net request Hne). now split.
  - intros args.
    change (Registry.required_parameters Registry.http_listTools "get-weather")
      with ["latitude"; "longitude"].
    unfold first_missing. split.
    + intros H p [<- | [<- | []]].
      * destruct (truthy (lookup "latitude" args)); [reflexivity | discriminate].
      * destruct (truthy (lookup "latitude" args)); [| discriminate].
        destruct (truthy (lookup "longitude" args)); [reflexivity | discriminate].
    + intros H. rewrite (H "latitude"), (H "longitude") by (simpl; auto). reflexivity.
Qed.

(* ===================================================================== *)
(** ** Requests on a known session *)
(* ===================================================================== *)

(** The POST branch that reuses a transport. *)
Lemma POST_reuse (env : Environment) (s : MCPServer) (req : HttpRequest) :
  session_check s req = true ->
  run env (POST req) s =
    ( match read s (session_header req) with
      | Live t =>
          match handleRequest_throws env t (body req) with
          | None =>
              (post_prologue req ++ [TransportHandleRequest t (body req)], inl tt)
          | Some error =>
              (post_prologue req ++
                 TransportHandleRequest t (body req) :: server_error env error,
               after_500 env t (body req))
          end
      | Inherited _ =>
          (post_prologue req ++
             server_error env
               (ThrownError (TypeError_not_a_function "transport.handleRequest")),
           inl tt)
      | Absent =>
          (post_prologue req ++
             server_error env
               (ThrownError (TypeError_undefined_property "handleRequest")),
           inl tt)
      end,
      s ).
Proof.
  unfold session_check. intros Hcheck. unfold_server. rewrite Hcheck.
  destruct (read s (session_header req)) as [t | m |]; try reflexivity.
  destruct (handleRequest_throws env t (body req)); [| reflexivity].
  unfold after_500. rewrite orb_false_r.
  destruct (headersSent_after env t (body req)); reflexivity.
Qed.

(** The GET branch behind the session check. *)
Lemma GET_known (env : Environment) (s : MCPServer) (req : HttpRequest) :
  session_check s req = true ->
  run env (GET req) s =
    match read s (session_header req) with
    | Live t =>
        match handleRequest_throws env t undefined with
        | None =>
            ( ( get_prologue req ++
                TransportHandleRequest t undefined ::
                send_log env t (LoggingMessageNotification "SSE Connection established"),
                inl tt ),
              with_streams (fun l => l ++ [mkStream t 0 false]) s )
        | Some error =>
            ( (get_prologue req ++ [TransportHandleRequest t undefined], inr error), s )
        end
    | Inherited _ =>
        ( ( get_prologue req,
            inr (ThrownError (TypeError_not_a_function "transport.handleRequest")) ),
          s )
    | Absent =>
        ( ( get_prologue req,
            inr (ThrownError (TypeError_undefined_property "handleRequest")) ),
          s )
    end.
Proof.
  unfold session_check. intros Hcheck.
  unfold run, handleGetRequest, pbind, log, lift, get, ret, emit.
  cbv beta iota zeta. rewrite <- negb_andb, Hcheck. cbn [negb].
  destruct (read s (session_header req)) as [t | m |]; cbn [transport_handleRequest];
    try reflexivity.
  unfold bind, emit, await_outcome.
  destruct (handleRequest_throws env t undefined); [reflexivity |].
  cbv beta iota zeta delta [ret]. rewrite streamMessages_run. reflexivity.
Qed.

Lemma session_check_registered (s : MCPServer) (req : HttpRequest)
    (k : string) (t : transport) :
  session_header req = Some k ->
  k <> "" ->
  lookup k (transports s) = Some t ->
  session_check s req = true /\ read s (session_header req) = Live t.
Proof.
  intros Hh Hk Hl. unfold session_check. rewrite Hh. unfold read, transports_get.
  rewrite Hl. split; [| reflexivity]. cbn [slot_truthy truthy_id].
  apply String.eqb_neq in Hk. now rewrite Hk.
Qed.

Lemma responses_app (l l' : list event) :
  responses (l ++ l') = responses l ++ responses l'.
Proof. unfold responses. apply flat_map_app. Qed.

Lemma responses_send_log (env : Environment) (t : transport) (n : list (string * JSON)) :
  responses (send_log env t n) = [].
Proof. unfold send_log. destruct (send_throws env t (rpc n)); reflexivity. Qed.

Lemma responses_broadcast_log (env : Environment) (targets : list transport) :
  responses (broadcast_log env targets) = [].
Proof.
  induction targets as [| t targets IH]; [reflexivity |].
  unfold broadcast_log in *. cbn [flat_map].
  now rewrite responses_app, responses_send_log, IH.
Qed.

(** A POST hands the request to at most one transport; it rejects only
    out of its [catch] block. *)
Lemma POST_handled (env : Environment) (s : MCPServer) (req : HttpRequest) :
  (exists t,
      (forall t', In (TransportHandleRequest t' (body req)) (effects_of env (POST req) s)
                  <-> t' = t) /\
      outcome_of env (POST req) s =
        match handleRequest_throws env t (body req) with
        | Some _ => after_500 env t (body req)
        | None => inl tt
        end) \/
  ((forall t', ~ In (TransportHandleRequest t' (body req)) (effects_of env (POST req) s)) /\
   outcome_of env (POST req) s = inl tt).
Proof.
  assert (Hone : forall t tail,
             (forall e, In e tail -> forall t' b, e <> TransportHandleRequest t' b) ->
             forall t',
               In (TransportHandleRequest t' (body req))
                  (post_prologue req ++ TransportHandleRequest t (body req) :: tail)
               <-> t' = t).
  { intros t tail Htail t'. split.
    - intros Hin. apply in_app_or in Hin. destruct Hin as [Hin | [Hin | Hin]].
      + simpl in Hin. intuition discriminate.
      + now injection Hin.
      + exfalso. exact (Htail _ Hin t' (body req) eq_refl).
    - intros ->. apply in_or_app. right. now left. }
  assert (Herr : forall error e, In e (server_error env error) ->
                                 forall t' b, e <> TransportHandleRequest t' b).
  { intros error e Hin t' b. simpl in Hin. intuition (subst; discriminate). }
  assert (Hnone : forall tail,
             (forall e, In e tail -> forall t' b, e <> TransportHandleRequest t' b) ->
             forall t', ~ In (TransportHandleRequest t' (body req))
                          (post_prologue req ++ tail)).
  { intros tail Htail t' Hin. apply in_app_or in Hin. destruct Hin as [Hin | Hin].
    - simpl in Hin. intuition discriminate.
    - exact (Htail _ Hin t' (body req) eq_refl). }
  unfold outcome_of, effects_of. destruct (session_check s req) eqn:Hcheck.
  - rewrite (POST_reuse env s req Hcheck).
    destruct (read s (session_header req)) as [t | m |].
    + left. exists t. destruct (handleRequest_throws env t (body req)) as [error |];
        cbn [fst snd effects outcome]; (split; [| reflexivity]).
      * apply Hone. apply Herr.
      * apply Hone. intros e [].
    + right. split; [| reflexivity]. cbn [fst effects]. apply Hnone. apply Herr.
    + right. split; [| reflexivity]. cbn [fst effects]. apply Hnone. apply Herr.
  - destruct (qualifies env req) eqn:Hq.
    + rewrite (POST_new_transport env s req Hq). cbv zeta.
      destruct (connect_throws env (created s)) as [error |].
      * right. split; [| reflexivity]. cbn [fst effects]. apply Hnone.
        intros e [<- | Hin]; [discriminate | now apply (Herr error)].
      * left. exists (created s).
        assert (Hshift : forall tail t',
                   In (TransportHandleRequest t' (body req))
                      (post_prologue req ++ ServerConnect (created s) ::
                       TransportHandleRequest (created s) (body req) :: tail) <->
                   In (TransportHandleRequest t' (body req))
                      (post_prologue req ++
                       TransportHandleRequest (created s) (body req) :: tail)).
        { intros tail t'. rewrite !in_app_iff. simpl. intuition discriminate. }
        destruct (handleRequest_throws env (created s) (body req)) as [error |];
          cbn [fst snd effects outcome]; (split; [| reflexivity]); intros t';
          rewrite Hshift; apply Hone.
        -- apply Herr.
        -- intros e [].
    + rewrite (POST_bad_request env s req Hcheck Hq). right.
      split; [| reflexivity]. cbn [fst effects].
      intros t' Hin. simpl in Hin. intuition discriminate.
Qed.

Lemma ToolTimer_run (env : Environment) (s : MCPServer) :
  run env ToolTimer s =
    match toolInterval s with
    | Some (mkTimeout false) =>
        ((SetListToolsHandler [weatherTool] ::
          broadcast_log env (Object_values (transports s)), inl tt), s)
    | _ => (([], inl tt), s)
    end.
Proof.
  destruct (toolInterval s) as [[[|]] |] eqn:H.
  - apply tool_fire_closed. now left.
  - now apply tool_fire_live.
  - apply tool_fire_closed. now right.
Qed.

Lemma StreamTimer_absent (env : Environment) (s : MCPServer) (i : nat) :
  nth_error (streams s) i = None ->
  run env (StreamTimerAt i) s = (([], inl tt), s).
Proof.
  intros H. unfold run, stream_fire, pbind, get, ret, pret. now rewrite H.
Qed.

(** X7: the two interval callbacks cannot throw: a firing of the
    tool-change interval or of a stream interval always completes
    normally.  [handlePostRequest] catches whatever the SDK throws, but
    its [catch] block calls [res.status(500).json] outside any [try]: a
    POST rejects exactly when the [handleRequest] of the transport it was
    handed to threw after that transport had sent the response head, and
    then with Express's headers-sent error; every other POST completes
    normally. *)
Theorem X7_when_post_and_timers_reject (env : Environment) (s : MCPServer) :
  (forall req,
      outcome_of env (POST req) s =
        inr (ThrownError
               (mkError "Error" "Cannot set headers after they are sent to the client"
                  None undefined))
      <->
      exists t error,
        In (TransportHandleRequest t (body req)) (effects_of env (POST req) s) /\
        handleRequest_throws env t (body req) = Some error /\
        headersSent_after env t (body req) = true) /\
  (forall req,
      outcome_of env (POST req) s = inl tt \/
      outcome_of env (POST req) s =
        inr (ThrownError
               (mkError "Error" "Cannot set headers after they are sent to the client"
                  None undefined))) /\
  outcome_of env ToolTimer s = inl tt /\
  (forall i, outcome_of env (StreamTimerAt i) s = inl tt).
Proof.
  split; [| split; [| split]].
  - intros req. destruct (POST_handled env s req) as [(t & Hin & Hout) | [Hnone Hout]].
    + rewrite Hout. unfold after_500. split.
      * intros H. exists t.
        destruct (handleRequest_throws env t (body req)) as [error |]; [| discriminate].
        exists error. split; [now apply Hin |]. split; [reflexivity |].
        destruct (headersSent_after env t (body req)); [reflexivity | discriminate].
      * intros (t' & error & Hin' & Hthrow & Hsent). apply Hin in Hin'. subst t'.
        now rewrite Hthrow, Hsent.
    + rewrite Hout. split; [discriminate |].
      intros (t' & error & Hin' & _). now apply Hnone in Hin'.
  - intros req. destruct (POST_handled env s req) as [(t & _ & Hout) | [_ Hout]];
      rewrite Hout; [| now left].
    unfold after_500. destruct (handleRequest_throws env t (body req)); [| now left].
    destruct (headersSent_after env t (body req)); [now right | now left].
  - unfold outcome_of. rewrite ToolTimer_run.
    destruct (toolInterval s) as [[[|]] |]; reflexivity.
  - intros i. unfold outcome_of.
    destruct (nth_error (streams s) i) as [st |] eqn:Hnth.
    + destruct (cleared st) eqn:Hc.
      * now rewrite (stream_fire_cleared env i st s Hnth Hc).
      * rewrite (stream_fire_live env i st s Hnth Hc). cbv zeta.
        destruct (Nat.eqb (S (messageCount st)) 2); reflexivity.
    + now rewrite (StreamTimer_absent env s i Hnth).
Qed.

Lemma GET_outcome (env : Environment) (s : MCPServer) (req : HttpRequest) :
  outcome_of env (GET req) s =
    if session_check s req then
      match read s (session_header req) with
      | Live t =>
          match handleRequest_throws env t undefined with
          | Some error => inr error
          | None => inl tt
          end
      | Inherited _ =>
          inr (ThrownError (TypeError_not_a_function "transport.handleRequest"))
      | Absent =>
          inr (ThrownError (TypeError_undefined_property "handleRequest"))
      end
    else inl tt.
Proof.
  unfold outcome_of. destruct (session_check s req) eqn:Hcheck.
  - rewrite (GET_known env s req Hcheck).
    destruct (read s (session_header req)) as [t | m |]; try reflexivity.
    destruct (handleRequest_throws env t undefined); reflexivity.
  - now rewrite (GET_bad_request env s req Hcheck).
Qed.

(** X8: [cleanup] rejects exactly with what [server.close()] throws.
    [handleGetRequest] has no [catch]: behind the session check it rejects
    with what the transport's [handleRequest] throws; and whenever it
    rejects, the server has written no response, started no stream and
    kept its state. *)
Theorem X8_what_get_and_cleanup_reject_with
    (env : Environment) (s : MCPServer) (req : HttpRequest) :
  outcome_of env Cleanup s =
    match close_throws env with
    | Some t => inr t
    | None => inl tt
    end /\
  (forall k t,
      session_header req = Some k -> k <> "" ->
      lookup k (transports s) = Some t ->
      outcome_of env (GET req) s =
        match handleRequest_throws env t undefined with
        | Some error => inr error
        | None => inl tt
        end) /\
  (forall error,
      outcome_of env (GET req) s = inr error ->
      responses (effects_of env (GET req) s) = [] /\
      sends (effects_of env (GET req) s) = [] /\
      state_after env (GET req) s = s).
Proof.
  split; [| split].
  - unfold_server. destruct (close_throws env); reflexivity.
  - intros k t Hh Hk Hl.
    destruct (session_check_registered s req k t Hh Hk Hl) as [Hcheck Hread].
    now rewrite GET_outcome, Hcheck, Hread.
  - intros error. unfold outcome_of, effects_of, state_after.
    destruct (session_check s req) eqn:Hcheck.
    + rewrite (GET_known env s req Hcheck).
      destruct (read s (session_header req)) as [t | m |]; try (intros _; now repeat split).
      destruct (handleRequest_throws env t undefined); [intros _; now repeat split |].
      discriminate.
    + rewrite (GET_bad_request env s req Hcheck). discriminate.
Qed.

Lemma X8_witness :
  let req := mkRequest (Some first_session) undefined in
  outcome_of env_handle_fails (GET req) two_sessions = inr stream_closed /\
  responses (effects_of env_handle_fails (GET req) two_sessions) = [] /\
  sends (effects_of env_handle_fails (GET req) two_sessions) = [] /\
  state_after env_handle_fails (GET req) two_sessions = two_sessions.
Proof.
  split; [reflexivity |].
  exact (proj2 (proj2 (X8_what_get_and_cleanup_reject_with env_handle_fails two_sessions
                         (mkRequest (Some first_session) undefined)))
           stream_closed eq_refl).
Defined.

(** X9: the server itself writes at most one response per call, and
    only for a GET or a POST: the 400 body for a request that fails the
    session check (and, for POST, does not qualify as initialize), or, for
    a POST only, the 500 body when an SDK call threw.  Both bodies are the
    JSON-RPC error envelope with code -32000. *)
Theorem X9_responses_written_by_the_server
    (env : Environment) (c : call) (s : MCPServer) :
  let written := responses (effects_of env c s) in
  written = [] \/
  (written = [(400%Z, bad_request env)] /\ exists req, c = GET req \/ c = POST req) \/
  (written = [(500%Z, internal_server_error env)] /\ exists req, c = POST req).
Proof.
  intros written. unfold written, effects_of. destruct c as [req | req | | i |].
  - destruct (session_check s req) eqn:Hcheck.
    + left. rewrite (GET_known env s req Hcheck).
      destruct (read s (session_header req)) as [t | m |]; try reflexivity.
      destruct (handleRequest_throws env t undefined); [reflexivity |].
      cbn [effects fst]. rewrite responses_app. cbn [get_prologue responses flat_map app].
      apply responses_send_log.
    + right. left. rewrite (GET_bad_request env s req Hcheck).
      split; [reflexivity |]. exists req. now left.
  - destruct (session_check s req) eqn:Hcheck.
    + rewrite (POST_reuse env s req Hcheck).
      destruct (read s (session_header req)) as [t | m |].
      * destruct (handleRequest_throws env t (body req)).
        -- right. right. split; [reflexivity | now exists req].
        -- now left.
      * right. right. split; [reflexivity | now exists req].
      * right. right. split; [reflexivity | now exists req].
    + destruct (qualifies env req) eqn:Hq.
      * rewrite (POST_new_transport env s req Hq). cbv zeta.
        destruct (connect_throws env (created s)).
        -- right. right. split; [reflexivity | now exists req].
        -- destruct (handleRequest_throws env (created s) (body req)).
           ++ right. right. split; [reflexivity | now exists req].
           ++ now left.
      * right. left. rewrite (POST_bad_request env s req Hcheck Hq).
        split; [reflexivity |]. exists req. now right.
  - left. rewrite ToolTimer_run.
    destruct (toolInterval s) as [[[|]] |]; try reflexivity.
    cbn [effects fst]. change (responses (?x :: ?l)) with (responses l).
    apply responses_broadcast_log.
  - left. destruct (nth_error (streams s) i) as [st |] eqn:Hnth.
    + destruct (cleared st) eqn:Hc.
      * now rewrite (stream_fire_cleared env i st s Hnth Hc).
      * rewrite (stream_fire_live env i st s Hnth Hc). cbv zeta.
        destruct (Nat.eqb (S (messageCount st)) 2); cbn [effects fst];
          rewrite !responses_app, ?responses_send_log; cbn [app];
          change (responses (ConsoleLog ?p :: ?l)) with (responses l);
          rewrite ?responses_app, ?responses_send_log; reflexivity.
    + now rewrite (StreamTimer_absent env s i Hnth).
  - left. unfold_server. destruct (close_throws env); reflexivity.
Qed.

Lemma POST_known_session (env : Environment) (s : MCPServer) (req : HttpRequest)
    (k : string) (t : transport) :
  session_header req = Some k ->
  k <> "" ->
  lookup k (transports s) = Some t ->
  effects_of env (POST req) s = delegated env t req /\
  state_after env (POST req) s = s.
Proof.
  intros Hh Hk Hl.
  destruct (session_check_registered s req k t Hh Hk Hl) as [Hcheck Hread].
  unfold effects_of, state_after.
  rewrite (POST_reuse env s req Hcheck), Hread. unfold delegated.
  destruct (handleRequest_throws env t (body req)); split; reflexivity.
Qed.

(** X10: registration and lookup round trip.  Once a qualifying POST has
    registered the fresh transport under the identifier [k] it reported,
    a POST carrying [k] is handed to that same transport, with its body,
    and a GET carrying [k] is handed to it without parsed body; the POST
    constructs no transport and leaves the server as it was. *)
Theorem X10_registered_session_is_routed
    (env env' : Environment) (s : MCPServer) (req req' : HttpRequest) (k : string) :
  qualifies env req = true ->
  connect_throws env (created s) = None ->
  handleRequest_throws env (created s) (body req) = None ->
  sessionId_after env (created s) (body req) = Some k ->
  k <> "" ->
  session_header req' = Some k ->
  let s1 := state_after env (POST req) s in
  lookup k (transports s1) = Some (created s) /\
  effects_of env' (POST req') s1 = delegated env' (created s) req' /\
  state_after env' (POST req') s1 = s1 /\
  In (TransportHandleRequest (created s) undefined) (effects_of env' (GET req') s1).
Proof.
  intros Hq Hc Hh Hid Hk Hh' s1.
  assert (Hs1 : s1 = with_transports (assign k (created s))
                       (with_created (S (created s)) s)).
  { unfold s1, state_after. rewrite (POST_new_transport env s req Hq). cbv zeta.
    rewrite Hc, Hh, Hid. cbn [snd].
    assert (Ht : truthy_id (Some k) = true) by (apply truthy_id_spec; now exists k).
    now rewrite Ht. }
  assert (Hl : lookup k (transports s1) = Some (created s)).
  { rewrite Hs1. cbn [transports with_transports]. apply lookup_assign_same. }
  split; [exact Hl |].
  destruct (POST_known_session env' s1 req' k (created s) Hh' Hk Hl) as [He Hs].
  split; [exact He |]. split; [exact Hs |].
  unfold effects_of.
  destruct (session_check_registered s1 req' k (created s) Hh' Hk Hl) as [Hcheck Hread].
  rewrite (GET_known env' s1 req' Hcheck), Hread.
  destruct (handleRequest_throws env' (created s) undefined); cbn [effects fst];
    apply in_or_app; right; now left.
Qed.

Lemma X10_witness :
  let req := mkRequest None initialize_body in
  let req' := mkRequest (Some first_session) (Some (JObj [("method", JStr "tools/list")])) in
  qualifies env_ok req = true /\
  sessionId_after env_ok (created fresh_server) (body req) = Some first_session /\
  effects_of env_ok (POST req') (state_after env_ok (POST req) fresh_server) =
    delegated env_ok (created fresh_server) req'.
Proof.
  split; [reflexivity |]. split; [reflexivity |].
  refine (proj1 (proj2 (X10_registered_session_is_routed env_ok env_ok fresh_server
                          (mkRequest None initialize_body)
                          (mkRequest (Some first_session)
                             (Some (JObj [("method", JStr "tools/list")])))
                          first_session eq_refl eq_refl eq_refl eq_refl _ eq_refl))).
  discriminate.
Defined.



(** X12: a GET that carries a registered session identifier is handed to
    the session's transport.  When [handleRequest] returns, the handler
    sends the one notification [SSE Connection established] to that
    transport and starts a new stream interval for it, with count 0,
    behind the intervals that exist already (also when the session has one
    already); the session map is unchanged and the server itself writes no
    response. *)
Theorem X12_get_starts_a_stream
    (env : Environment) (s : MCPServer) (req : HttpRequest) (k : string) (t : transport) :
  lookup k (transports s) = Some t ->
  k <> "" ->
  session_header req = Some k ->
  handleRequest_throws env t undefined = None ->
  let s' := state_after env (GET req) s in
  outcome_of env (GET req) s = inl tt /\
  sends (effects_of env (GET req) s) =
    [(t, rpc (LoggingMessageNotification "SSE Connection established"))] /\
  streams s' = streams s ++ [mkStream t 0 false] /\
  transports s' = transports s /\
  responses (effects_of env (GET req) s) = [].
Proof.
  intros Hl Hk Hh Hok s'.
  destruct (session_check_registered s req k t Hh Hk Hl) as [Hcheck Hread].
  unfold s', outcome_of, effects_of, state_after.
  rewrite (GET_known env s req Hcheck), Hread, Hok. cbn [fst snd effects outcome].
  split; [reflexivity |]. split; [| split; [reflexivity | split; [reflexivity |]]].
  - rewrite sends_app. cbn [get_prologue sends flat_map app].
    apply sends_send_log.
  - rewrite responses_app. cbn [get_prologue responses flat_map app].
    apply responses_send_log.
Qed.

Lemma X12_witness :
  let req := mkRequest (Some first_session) undefined in
  lookup first_session (transports two_sessions) = Some 0 /\
  handleRequest_throws env_ok 0 undefined = None /\
  streams (state_after env_ok (GET req) two_sessions) =
    [mkStream 0 0 false; mkStream 0 0 false].
Proof.
  split; [reflexivity |]. split; [reflexivity |].
  refine (proj1 (proj2 (proj2 (X12_get_starts_a_stream env_ok two_sessions
                                 (mkRequest (Some first_session) undefined)
                                 first_session 0 eq_refl _ eq_refl eq_refl)))).
  discriminate.
Defined.

(** X13: only a qualifying POST changes the session map: when a call
    leaves the map different, the call was a POST without session
    identifier and with an initialize-shaped body, and the new map is the
    old one with the fresh transport assigned to one identifier. *)
Theorem X13_session_map_changes_only_by_registration
    (env : Environment) (c : call) (s : MCPServer) :
  transports (state_after env c s) <> transports s ->
  exists req k,
    c = POST req /\
    qualifies env req = true /\
    sessionId_after env (created s) (body req) = Some k /\
    transports (state_after env c s) = assign k (created s) (transports s).
Proof.
  intros Hdiff. destruct c as [req | req | | j |].
  - exfalso. apply Hdiff.
    destruct (GET_state env s req) as [-> | (t & ->)]; reflexivity.
  - destruct (qualifies env req) eqn:Hq.
    + revert Hdiff. unfold state_after. rewrite (POST_new_transport env s req Hq).
      cbv zeta.
      destruct (connect_throws env (created s)); [intros H; now elim H |].
      destruct (handleRequest_throws env (created s) (body req));
        [intros H; now elim H |].
      cbn [snd].
      destruct (sessionId_after env (created s) (body req)) as [k |] eqn:Hid;
        [| intros H; now elim H].
      destruct (truthy_id (Some k)); [| intros H; now elim H].
      intros _. exists req, k. repeat split; assumption.
    + exfalso. apply Hdiff. now rewrite (proj1 (POST_not_qualifying env s req Hq)).
  - exfalso. apply Hdiff. now rewrite ToolTimer_state.
  - exfalso. apply Hdiff. destruct (StreamTimer_state env s j) as (f & ->). reflexivity.
  - exfalso. apply Hdiff. now rewrite cleanup_state.
Qed.

Lemma X13_witness :
  let c := POST (mkRequest None initialize_body) in
  transports (state_after env_ok c fresh_server) <> transports fresh_server /\
  exists req k,
    c = POST req /\
    qualifies env_ok req = true /\
    sessionId_after env_ok (created fresh_server) (body req) = Some k /\
    transports (state_after env_ok c fresh_server) =
      assign k (created fresh_server) (transports fresh_server).
Proof.
  assert (H : transports (state_after env_ok (POST (mkRequest None initialize_body))
                            fresh_server) <> transports fresh_server)
    by (simpl; discriminate).
  split; [exact H |].
  exact (X13_session_map_changes_only_by_registration env_ok
           (POST (mkRequest None initialize_body)) fresh_server H).
Defined.

Lemma prototype_member_nonempty (k : string) :
  In k object_prototype_members -> k <> "".
Proof.
  unfold object_prototype_members. simpl.
  intros H. repeat (destruct H as [<- | H]; [discriminate |]). contradiction.
Qed.

Lemma includes_In (xs : list string) (k : string) :
  In k xs -> includes xs k = true.
Proof.
  intros H. unfold includes. apply existsb_exists. exists k. split; [exact H |].
  apply String.eqb_refl.
Qed.

(** X14: a session header that is the name of a member of
    [Object.prototype], with no session registered under that name,
    passes the session check of both verbs, in every server state: the GET
    rejects with the [TypeError] of calling [handleRequest] on the
    inherited member and nothing is answered; the POST answers the 500
    body; neither changes the server. *)
Theorem X14_inherited_members_pass_the_session_check
    (env : Environment) (s : MCPServer) (req : HttpRequest) (k : string) :
  In k object_prototype_members ->
  lookup k (transports s) = None ->
  session_header req = Some k ->
  session_check s req = true /\
  run env (GET req) s =
    ((get_prologue req,
      inr (ThrownError (TypeError_not_a_function "transport.handleRequest"))), s) /\
  responses (effects_of env (POST req) s) = [(500%Z, internal_server_error env)] /\
  state_after env (POST req) s = s.
Proof.
  intros Hin Hl Hh.
  assert (Hread : read s (session_header req) = Inherited k).
  { rewrite Hh. unfold read, transports_get. now rewrite Hl, (includes_In _ k Hin). }
  assert (Hcheck : session_check s req = true).
  { unfold session_check. rewrite Hread, Hh. cbn [slot_truthy truthy_id].
    pose proof (prototype_member_nonempty k Hin) as Hne.
    apply String.eqb_neq in Hne. now rewrite Hne. }
  split; [exact Hcheck |]. split; [| split].
  - now rewrite (GET_known env s req Hcheck), Hread.
  - unfold effects_of. now rewrite (POST_reuse env s req Hcheck), Hread.
  - unfold state_after. now rewrite (POST_reuse env s req Hcheck), Hread.
Qed.

Lemma X14_witness :
  let req := mkRequest (Some "toString") initialize_body in
  In "toString" object_prototype_members /\
  lookup "toString" (transports two_sessions) = None /\
  responses (effects_of env_ok (POST req) two_sessions) =
    [(500%Z, internal_server_error env_ok)].
Proof.
  assert (H : In "toString" object_prototype_members) by (simpl; tauto).
  split; [exact H |]. split; [reflexivity |].
  exact (proj1 (proj2 (proj2 (X14_inherited_members_pass_the_session_check env_ok
                                two_sessions (mkRequest (Some "toString") initialize_body)
                                "toString" H eq_refl eq_refl)))).
Defined.

(* ===================================================================== *)
(** ** Invariants of the reachable states *)
(* ===================================================================== *)

Lemma run_all_invariant (I : MCPServer -> Prop) :
  (forall env c s, I s -> I (state_after env c s)) ->
  forall schedule s, I s -> I (snd (run_all schedule s)).
Proof.
  intros Hstep schedule. induction schedule as [| [env c] rest IH]; intros s Hs.
  - exact Hs.
  - rewrite run_all_step. apply IH. now apply Hstep.
Qed.

Lemma one_session_preserved (env : Environment) (c : call) (s : MCPServer) :
  well_formed s /\ one_session_per_transport s ->
  well_formed (state_after env c s) /\ one_session_per_transport (state_after env c s).
Proof.
  intros [Hwf Hinj]. split; [now apply well_formed_preserved |].
  unfold one_session_per_transport in *.
  destruct c as [req | req | | j |].
  - destruct (GET_state env s req) as [-> | (t' & ->)]; exact Hinj.
  - destruct (POST_state env s req) as [-> | [-> | (k & ->)]]; try exact Hinj.
    cbn [transports with_transports with_created].
    assert (Hfresh : forall k', lookup k' (transports s) <> Some (created s)).
    { intros k' Hk'. apply Hwf in Hk'. lia. }
    intros k1 k2 t H1 H2.
    destruct (string_dec k1 k) as [-> | N1]; destruct (string_dec k2 k) as [-> | N2].
    + reflexivity.
    + rewrite lookup_assign_same in H1. injection H1 as <-.
      rewrite lookup_assign_other in H2 by exact N2. now apply Hfresh in H2.
    + rewrite lookup_assign_same in H2. injection H2 as <-.
      rewrite lookup_assign_other in H1 by exact N1. now apply Hfresh in H1.
    + rewrite lookup_assign_other in H1 by exact N1.
      rewrite lookup_assign_other in H2 by exact N2. exact (Hinj k1 k2 t H1 H2).
  - rewrite ToolTimer_state. exact Hinj.
  - destruct (StreamTimer_state env s j) as (f & ->). exact Hinj.
  - rewrite cleanup_state. exact Hinj.
Qed.

(** X15: in every state that a new server reaches, by any schedule of
    requests, timer firings and cleanups in any environments, every
    registered transport was constructed by the server, and no transport
    is registered under two session identifiers. *)
Theorem X15_one_session_per_transport (schedule : list (Environment * call)) :
  well_formed (state_reached schedule) /\
  one_session_per_transport (state_reached schedule).
Proof.
  unfold state_reached.
  apply (run_all_invariant
           (fun s => well_formed s /\ one_session_per_transport s)).
  - intros env c s. apply one_session_preserved.
  - split; intros k; intros; discriminate.
Qed.

Lemma Forall_update_nth {A : Type} (P : A -> Prop) (f : A -> A) (l : list A) (j : nat) :
  Forall P l ->
  (forall x, nth_error l j = Some x -> P (f x)) ->
  Forall P (update_nth j f l).
Proof.
  revert j. induction l as [| y l IH]; intros j Hall Hf; [constructor |].
  inversion Hall as [| ? ? Hy Hl]; subst.
  destruct j as [| j]; cbn [update_nth].
  - constructor; [apply Hf; reflexivity | exact Hl].
  - constructor; [exact Hy |]. apply IH; [exact Hl |]. intros x Hx. now apply Hf.
Qed.

Lemma stream_ok_preserved (env : Environment) (c : call) (s : MCPServer) :
  Forall stream_ok (streams s) -> Forall stream_ok (streams (state_after env c s)).
Proof.
  intros Hall. destruct c as [req | req | | j |].
  - destruct (GET_state env s req) as [-> | (t & ->)]; [exact Hall |].
    cbn [streams with_streams]. apply Forall_app. split; [exact Hall |].
    constructor; [| constructor]. left. cbn. split; [reflexivity | lia].
  - destruct (POST_state env s req) as [-> | [-> | (k & ->)]]; exact Hall.
  - now rewrite ToolTimer_state.
  - unfold state_after.
    destruct (nth_error (streams s) j) as [st |] eqn:Hnth.
    + assert (Hst : stream_ok st).
      { rewrite Forall_forall in Hall. apply Hall. eapply nth_error_In. exact Hnth. }
      destruct (cleared st) eqn:Hc.
      * now rewrite (stream_fire_cleared env j st s Hnth Hc).
      * rewrite (stream_fire_live env j st s Hnth Hc). cbv zeta.
        destruct Hst as [[_ Hlt] | [Hc' _]]; [| congruence].
        destruct (Nat.eqb (S (messageCount st)) 2) eqn:E; cbn [snd streams with_streams].
        -- rewrite update_nth_twice. apply Forall_update_nth; [exact Hall |].
           intros x Hx. rewrite Hnth in Hx. injection Hx as <-.
           right. cbn. split; [reflexivity |]. now apply Nat.eqb_eq in E.
        -- apply Forall_update_nth; [exact Hall |].
           intros x Hx. rewrite Hnth in Hx. injection Hx as <-.
           left. cbn. rewrite Hc. split; [reflexivity |].
           apply Nat.eqb_neq in E. lia.
    + now rewrite (StreamTimer_absent env s j Hnth).
  - now rewrite cleanup_state.
Qed.

(** X16: in every state that a new server reaches, each stream interval
    is either live with fewer than two messages counted, or cleared with
    exactly two: no schedule makes an interval count a third message, and
    none is cleared early. *)
Theorem X16_stream_intervals_stop_at_two (schedule : list (Environment * call)) :
  Forall stream_ok (streams (state_reached schedule)) /\
  (forall i st,
      nth_error (streams (state_reached schedule)) i = Some st ->
      messageCount st <= 2 /\ (cleared st = true <-> messageCount st = 2)).
Proof.
  assert (Hall : Forall stream_ok (streams (state_reached schedule))).
  { unfold state_reached.
    apply (run_all_invariant (fun s => Forall stream_ok (streams s))).
    - intros env c s. apply stream_ok_preserved.
    - constructor. }
  split; [exact Hall |].
  intros i st Hnth. rewrite Forall_forall in Hall.
  destruct (Hall st (nth_error_In _ _ Hnth)) as [[Hc Hlt] | [Hc Heq]].
  - split; [lia |]. split; [congruence | lia].
  - split; [lia |]. split; auto.
Qed.

(* ===================================================================== *)
(** ** The broadcast and the message format *)
(* ===================================================================== *)

Lemma insert_by_index_perm (x : N * transport) (l : list (N * transport)) :
  Permutation (insert_by_index x l) (x :: l).
Proof.
  induction l as [| y l IH]; cbn [insert_by_index]; [reflexivity |].
  destruct (fst x <=? fst y)%N; [reflexivity |].
  rewrite IH. apply perm_swap.
Qed.

Lemma Object_values_perm (own : list (string * transport)) :
  Permutation (Object_values own) (map snd own).
Proof.
  unfold Object_values. induction own as [| [k t] own IH]; [reflexivity |].
  cbn [indexed named map snd]. destruct (array_index k) as [n |].
  - rewrite (Permutation_map snd (insert_by_index_perm (n, t) (indexed own))).
    cbn [map snd app]. now constructor.
  - rewrite <- Permutation_middle. now constructor.
Qed.

Lemma Object_values_insertion_order (own : list (string * transport)) :
  (forall k t, In (k, t) own -> array_index k = None) ->
  Object_values own = map snd own.
Proof.
  unfold Object_values. induction own as [| [k t] own IH]; intros Hnone; [reflexivity |].
  cbn [indexed named map snd]. rewrite (Hnone k t (or_introl eq_refl)).
  assert (Hrest : forall k' t', In (k', t') own -> array_index k' = None).
  { intros k' t' Hin. apply (Hnone k' t'). now right. }
  specialize (IH Hrest).
  assert (Hidx : indexed own = []).
  { clear IH Hnone. induction own as [| [k' t'] own IH']; [reflexivity |].
    cbn [indexed]. rewrite (Hrest k' t' (or_introl eq_refl)).
    apply IH'. intros k2 t2 Hin. apply (Hrest k2 t2). now right. }
  rewrite Hidx in *. cbn [map app] in *. now rewrite IH.
Qed.

(** X17: one firing of the live tool-change interval sends the
    tool-list-changed notification once to each registered session, no
    more and no less, whichever sends fail; when no session identifier is
    an array index (as with UUIDs), the sends follow the order of
    registration. *)
Theorem X17_one_send_per_session (env : Environment) (s : MCPServer) :
  toolInterval s = Some (mkTimeout false) ->
  let log := effects_of env ToolTimer s in
  Permutation (map fst (sends log)) (map snd (transports s)) /\
  length (sends log) = length (transports s) /\
  (forall m, In m (map snd (sends log)) -> m = rpc ToolListChangedNotification) /\
  ((forall k t, In (k, t) (transports s) -> array_index k = None) ->
   map fst (sends log) = map snd (transports s)).
Proof.
  intros Hlive log.
  assert (Hsends : sends log =
            map (fun t => (t, rpc ToolListChangedNotification))
              (Object_values (transports s))).
  { unfold log, effects_of. rewrite (tool_fire_live env s Hlive). cbn [effects fst].
    change (sends (?x :: ?l)) with (sends l). apply sends_broadcast_log. }
  assert (Hfst : map fst (sends log) = Object_values (transports s)).
  { rewrite Hsends, map_map. cbn [fst]. apply map_id. }
  split; [| split; [| split]].
  - rewrite Hfst. apply Object_values_perm.
  - rewrite <- (length_map fst), Hfst, (Permutation_length (Object_values_perm _)).
    apply length_map.
  - intros m Hm. rewrite Hsends, map_map in Hm. cbn [snd] in Hm.
    apply in_map_iff in Hm. destruct Hm as (t & <- & _). reflexivity.
  - intros Hnone. rewrite Hfst. now apply Object_values_insertion_order.
Qed.

Lemma X17_witness :
  toolInterval two_sessions = Some (mkTimeout false) /\
  length (sends (effects_of env_send_fails ToolTimer two_sessions)) =
    length (transports two_sessions).
Proof.
  split; [reflexivity |].
  exact (proj1 (proj2 (X17_one_send_per_session env_send_fails two_sessions eq_refl))).
Defined.

(** X18: the message that [sendNotification] hands to the transport is
    the notification with the member [jsonrpc] set to ["2.0"]: every other
    member is the notification's own, and a [jsonrpc] member of the
    notification is overwritten.  The call makes exactly this one [send]
    and rejects exactly with what [send] throws. *)
Theorem X18_notification_envelope
    (env : Environment) (t : transport) (notification : list (string * JSON)) :
  effects (sendNotification env t notification) = [TransportSend t (rpc notification)] /\
  outcome (sendNotification env t notification) =
    match send_throws env t (rpc notification) with
    | Some error => inr error
    | None => inl tt
    end /\
  get_member (Some (rpc notification)) "jsonrpc" = Some (JStr "2.0") /\
  (forall k, k <> "jsonrpc" ->
             get_member (Some (rpc notification)) k = lookup k notification).
Proof.
  split; [| split; [| split]].
  - unfold sendNotification, rpc, await_outcome, bind, emit, ret, throw.
    destruct (send_throws env t _); reflexivity.
  - unfold sendNotification, rpc, await_outcome, bind, emit, ret, throw.
    destruct (send_throws env t _); reflexivity.
  - unfold rpc. cbn [get_member]. apply lookup_assign_same.
  - intros k Hk. unfold rpc. cbn [get_member]. now apply lookup_assign_other.
Qed.

Lemma X18_witness :
  "method" <> "jsonrpc" /\
  get_member (Some (rpc [("jsonrpc", JStr "1.0"); ("method", JStr "ping")])) "method" =
    Some (JStr "ping").
Proof.
  assert (H : "method" <> "jsonrpc") by discriminate.
  split; [exact H |].
  exact (proj2 (proj2 (proj2 (X18_notification_envelope env_ok 0
                                [("jsonrpc", JStr "1.0"); ("method", JStr "ping")])))
           "method" H).
Defined.

(* ===================================================================== *)
(** ** The stdio process *)
(* ===================================================================== *)

(** X19: the stdio process never fails at top level: when
    [server.connect] throws, [run]'s rejection is written to
    [console.error] and the line [running on stdio] is not; that line is
    written exactly when the connect returned.  The [SIGINT] listener
    closes the server first and calls [process.exit(0)] exactly when the
    close returned; when the close throws, it rejects and never exits. *)
Theorem X19_stdio_process (env : StdioMain.Environment) :
  outcome (StdioMain.main env) = inl tt /\
  (In (ConsoleError [Text "Weather MCP server running on stdio"])
      (effects (StdioMain.main env))
   <-> StdioMain.connect_throws env = None) /\
  (forall error,
      StdioMain.connect_throws env = Some error ->
      In (ConsoleError [ShownThrown error]) (effects (StdioMain.main env))) /\
  effects (StdioMain.onSIGINT env) = [ServerClose] /\
  outcome (StdioMain.onSIGINT env) =
    match StdioMain.close_throws env with
    | Some error => inr error
    | None => inl 0%Z
    end.
Proof.
  destruct env as [[e |] cl]; cbn.
  - split; [reflexivity |]. split; [| split; [| split]].
    + split; [| discriminate].
      intros [H | [H | [H | [H | [H | []]]]]]; discriminate.
    + intros error [= <-]. auto 10.
    + destruct cl; reflexivity.
    + destruct cl; reflexivity.
  - split; [reflexivity |]. split; [| split; [| split]].
    + split; [reflexivity |]. intros _. auto 10.
    + discriminate.
    + destruct cl; reflexivity.
    + destruct cl; reflexivity.
Qed.

(* ===================================================================== *)
(** ** The 400 answer and the tool-change interval *)
(* ===================================================================== *)

Lemma includes_false (xs : list string) (k : string) :
  includes xs k = false <-> ~ In k xs.
Proof.
  split.
  - intros H Hin. now rewrite (includes_In xs k Hin) in H.
  - intros H. destruct (includes xs k) eqn:E; [| reflexivity].
    unfold includes in E. apply existsb_exists in E. destruct E as (x & Hin & Hx).
    apply String.eqb_eq in Hx. subst x. contradiction.
Qed.

Lemma session_check_false (s : MCPServer) (req : HttpRequest) :
  session_check s req = false <-> unknown_session s req.
Proof.
  unfold session_check, unknown_session, read, transports_get.
  destruct (session_header req) as [k |]; [| now split].
  cbn [truthy_id]. destruct (String.eqb k "") eqn:Hk.
  - apply String.eqb_eq in Hk. split; [now left | reflexivity].
  - apply String.eqb_neq in Hk. cbn [negb andb].
    destruct (lookup k (transports s)) as [t |].
    + split; [discriminate |]. intros [H | [H _]]; [contradiction | discriminate].
    + destruct (includes object_prototype_members k) eqn:Hi.
      * split; [discriminate |]. intros [H | [_ H]]; [contradiction |].
        apply includes_false in H. congruence.
      * split; [| reflexivity]. intros _. right. split; [reflexivity |].
        now apply includes_false.
Qed.

(** X20: the server answers a request with the 400 body exactly as
    follows.  A GET: when its session header is absent, empty, or names
    neither a registered session nor a member of [Object.prototype].  A
    POST: when, in addition, it does not qualify for a new session; a POST
    whose header names an unknown session is therefore answered 400 also
    when its body is initialize-shaped.  The answer leaves the server as
    it was, and its body is the JSON-RPC envelope with [error.code]
    -32000, the fixed message, a generated [id] and no [result]. *)
Theorem X20_bad_request_exactly_when
    (env : Environment) (s : MCPServer) (req : HttpRequest) :
  (responses (effects_of env (GET req) s) = [(400%Z, bad_request env)]
   <-> unknown_session s req) /\
  (responses (effects_of env (POST req) s) = [(400%Z, bad_request env)]
   <-> unknown_session s req /\ qualifies env req = false) /\
  (unknown_session s req ->
   state_after env (GET req) s = s /\
   (forall k, session_header req = Some k -> k <> "" ->
              responses (effects_of env (POST req) s) = [(400%Z, bad_request env)] /\
              state_after env (POST req) s = s)) /\
  bad_request env =
    JObj [ ("jsonrpc", JStr "2.0");
           ("error", JObj [ ("code", JNum (inject_Z (-32000)));
                            ("message",
                             JStr "Bad Request: invalid session ID or method.") ]);
           ("id", JStr (randomUUID env)) ].
Proof.
  split; [| split; [| split; [| reflexivity]]].
  - rewrite <- session_check_false. unfold effects_of.
    destruct (session_check s req) eqn:Hcheck.
    + split; [| discriminate].
      rewrite (GET_known env s req Hcheck).
      destruct (read s (session_header req)) as [t | m |]; try discriminate.
      destruct (handleRequest_throws env t undefined); [discriminate |].
      cbn [effects fst]. rewrite responses_app.
      cbn [get_prologue responses flat_map app]. rewrite responses_send_log.
      discriminate.
    + rewrite (GET_bad_request env s req Hcheck). now split.
  - rewrite <- session_check_false. unfold effects_of.
    destruct (session_check s req) eqn:Hcheck.
    + split; [| intros [H _]; discriminate].
      rewrite (POST_reuse env s req Hcheck).
      destruct (read s (session_header req)) as [t | m |]; try discriminate.
      destruct (handleRequest_throws env t (body req)); discriminate.
    + destruct (qualifies env req) eqn:Hq.
      * split; [| intros [_ H]; discriminate].
        rewrite (POST_new_transport env s req Hq). cbv zeta.
        destruct (connect_throws env (created s)); [discriminate |].
        destruct (handleRequest_throws env (created s) (body req)); discriminate.
      * rewrite (POST_bad_request env s req Hcheck Hq). now split.
  - intros Hunknown. apply session_check_false in Hunknown.
    split.
    + unfold state_after. now rewrite (GET_bad_request env s req Hunknown).
    + intros k Hh Hk.
      assert (Hq : qualifies env req = false).
      { unfold qualifies, no_session_id. rewrite Hh. cbn [truthy_id].
        apply String.eqb_neq in Hk. now rewrite Hk. }
      unfold effects_of, state_after.
      rewrite (POST_bad_request env s req Hunknown Hq). now split.
Qed.

Lemma toolInterval_after (env : Environment) (c : call) (s : MCPServer) :
  toolInterval (state_after env c s) =
    if is_cleanup c
    then option_map (fun _ => mkTimeout true) (toolInterval s)
    else toolInterval s.
Proof.
  destruct c as [req | req | | j |]; cbn [is_cleanup].
  - destruct (GET_state env s req) as [-> | (t & ->)]; reflexivity.
  - destruct (POST_state env s req) as [-> | [-> | (k & ->)]]; reflexivity.
  - now rewrite ToolTimer_state.
  - destruct (StreamTimer_state env s j) as (f & ->). reflexivity.
  - now rewrite cleanup_state.
Qed.

Lemma toolInterval_run_all (schedule : list (Environment * call)) (s : MCPServer)
    (b : bool) :
  toolInterval s = Some (mkTimeout b) ->
  toolInterval (snd (run_all schedule s)) =
    Some (mkTimeout (b || existsb is_cleanup (map snd schedule))).
Proof.
  revert s b. induction schedule as [| [env c] rest IH]; intros s b Hs.
  - cbn. now rewrite orb_false_r.
  - rewrite run_all_step. cbn [map snd existsb].
    rewrite (IH (state_after env c s) (b || is_cleanup c)).
    + now rewrite orb_assoc.
    + rewrite toolInterval_after, Hs. destruct (is_cleanup c); cbn.
      * now rewrite orb_true_r.
      * now rewrite orb_false_r.
Qed.

(** X21: the tool-change interval is created by the constructor and
    exists in every reachable state; it is closed exactly when the
    schedule so far contains a [cleanup]: nothing else stops it and
    nothing restarts it.  Once closed, its firings do nothing. *)
Theorem X21_tool_interval_lifetime (schedule : list (Environment * call)) :
  toolInterval (state_reached schedule) =
    Some (mkTimeout (existsb is_cleanup (map snd schedule))) /\
  (forall env,
      effects_of env ToolTimer (state_reached schedule) = [] <->
      existsb is_cleanup (map snd schedule) = true).
Proof.
  assert (H : toolInterval (state_reached schedule) =
              Some (mkTimeout (existsb is_cleanup (map snd schedule)))).
  { unfold state_reached.
    now rewrite (toolInterval_run_all schedule fresh_server false eq_refl). }
  split; [exact H |].
  intros env. unfold effects_of. rewrite ToolTimer_run, H.
  destruct (existsb is_cleanup (map snd schedule)); cbn [effects fst].
  - now split.
  - split; discriminate.
Qed.
